(** * Sub-conversation task polling and per-conversation persisted state

    A shallow embedding of the front-end hook [useSubConversationTaskPolling]
    (hooks/query/use-sub-conversation-task-polling) together with the two
    stores it synchronises: the per-conversation record kept in the browser's
    [localStorage] (utils/conversation-local-storage) and the in-memory
    conversation store.

    The hook is embedded from its source.  The React and React Query runtime
    it runs on ([useQuery], [useEffect]) is an external library; the part of
    its documented behaviour the hook relies on is written out in the modules
    [React] and [Observer] below. *)

From stdpp Require Import base option strings list gmap pretty.
From Stdlib Require Import ZArith.

Open Scope string_scope.
Open Scope list_scope.

(** ** Per-conversation persisted state *)

Module ConversationLocalStorage.

(** The complete record handed to readers. *)
Record ConversationState := mkConversationState {
  selectedTab : string;
  rightPanelShown : bool;
  unpinnedTabs : list string;
  subConversationTaskId : option string
}.

(** [Partial<ConversationState>]: every key may be absent.  A key that is
    present and holds [null] is [Some None] for [subConversationTaskId]. *)
Record PartialConversationState := mkPartial {
  selectedTab_opt : option string;
  rightPanelShown_opt : option bool;
  unpinnedTabs_opt : option (list string);
  subConversationTaskId_opt : option (option string)
}.

#[global] Instance ConversationState_eq_dec : EqDecision ConversationState.
Proof. solve_decision. Defined.

#[global] Instance PartialConversationState_eq_dec :
  EqDecision PartialConversationState.
Proof. solve_decision. Defined.

(** The object [{}]. *)
Definition emptyPartial : PartialConversationState :=
  mkPartial None None None None.

(** The object [{ subConversationTaskId: v }]. *)
Definition onlySubConversationTaskId (v : option string)
  : PartialConversationState :=
  mkPartial None None None (Some v).

(** The browser's [localStorage], restricted to the entries this module
    owns.  An entry is kept in parsed form: the JSON text written by
    [JSON.stringify] and read back by [JSON.parse] is not modelled. *)
Abbreviation LocalStorage := (gmap string PartialConversationState).

(** Modelled from the spec: [LOCAL_STORAGE_KEYS.CONVERSATION_STATE], the
    fixed prefix of the storage key.  The module that declares it is not
    among the sources; its value is the one the repository's tests read
    back (the entry [conversation-state-<id>]). *)
Definition CONVERSATION_STATE : string := "conversation-state".

(** Modelled from the spec: the storage key of a conversation, a fixed
    prefix concatenated with the conversation id; the tests build it as
    [`${LOCAL_STORAGE_KEYS.CONVERSATION_STATE}-${conversationId}`]. *)
Definition conversationStateKey (conversationId : string) : string :=
  CONVERSATION_STATE +:+ "-" +:+ conversationId.

(** Modelled from the spec: the default record of
    utils/conversation-local-storage, which is not among the sources.  The
    values are those its test suite expects when nothing is stored. *)
Definition DEFAULT_CONVERSATION_STATE : ConversationState :=
  {| selectedTab := "editor";
     rightPanelShown := true;
     unpinnedTabs := [];
     subConversationTaskId := None |}.

(** One key of [{ ...current, ...updates }]: the value in [updates] if the
    key is present there, the one in [current] (or absence) otherwise. *)
Definition spreadKey {A} (current updates : option A) : option A :=
  match updates with
  | Some v => Some v
  | None => current
  end.

(** [{ ...current, ...updates }] on partial records. *)
Definition mergePartial (current updates : PartialConversationState)
  : PartialConversationState :=
  {| selectedTab_opt :=
       spreadKey (selectedTab_opt current) (selectedTab_opt updates);
     rightPanelShown_opt :=
       spreadKey (rightPanelShown_opt current) (rightPanelShown_opt updates);
     unpinnedTabs_opt :=
       spreadKey (unpinnedTabs_opt current) (unpinnedTabs_opt updates);
     subConversationTaskId_opt :=
       spreadKey (subConversationTaskId_opt current)
                 (subConversationTaskId_opt updates) |}.

(** [{ ...defaults, ...stored }]: a complete record. *)
Definition withDefaults (defaults : ConversationState)
    (stored : PartialConversationState) : ConversationState :=
  {| selectedTab := default (selectedTab defaults) (selectedTab_opt stored);
     rightPanelShown :=
       default (rightPanelShown defaults) (rightPanelShown_opt stored);
     unpinnedTabs := default (unpinnedTabs defaults) (unpinnedTabs_opt stored);
     subConversationTaskId :=
       default (subConversationTaskId defaults)
               (subConversationTaskId_opt stored) |}.

(** The stored record of a conversation, [{}] when there is none. *)
Definition storedRecord (ls : LocalStorage) (conversationId : string)
  : PartialConversationState :=
  default emptyPartial (ls !! conversationStateKey conversationId).

(** Modelled from the spec: [getConversationState] of
    utils/conversation-local-storage (only its tests are among the
    sources).  It returns the defaults merged with any stored partial
    record. *)
Definition getConversationState (ls : LocalStorage) (conversationId : string)
  : ConversationState :=
  withDefaults DEFAULT_CONVERSATION_STATE (storedRecord ls conversationId).

(** Modelled from the spec: [setConversationState] of
    utils/conversation-local-storage (only its tests are among the
    sources).  It merges the partial into the existing stored record and
    writes the result under the conversation's key. *)
Definition setConversationState (ls : LocalStorage) (conversationId : string)
    (updates : PartialConversationState) : LocalStorage :=
  <[ conversationStateKey conversationId :=
       mergePartial (storedRecord ls conversationId) updates ]> ls.

End ConversationLocalStorage.

(** ** Values exchanged with the task service *)

Module Task.

(** [V1AppConversationStartTask], restricted to the fields the hook reads.
    [status] is kept as the string the service sends: the hook compares it
    with the literals ["READY"] and ["ERROR"] and treats every other value
    alike. *)
Record V1AppConversationStartTask := mkTask {
  task_id : string;
  status : string;
  detail : option string;
  app_conversation_id : option string
}.

#[global] Instance V1AppConversationStartTask_eq_dec :
  EqDecision V1AppConversationStartTask.
Proof. solve_decision. Defined.

(** What [taskQuery.data] can hold: [undefined] before the first response,
    [null] (the value [queryFn] resolves to without a task id), or a task. *)
Inductive QueryData :=
| DUndefined
| DNull
| DTask (task : V1AppConversationStartTask).

#[global] Instance QueryData_eq_dec : EqDecision QueryData.
Proof. solve_decision. Defined.

(** How one call of [V1ConversationService.getStartTask] ends: the promise
    resolves to a task or rejects with a transport error. *)
Inductive Reply :=
| Resolves (task : V1AppConversationStartTask)
| Rejects (err : string).

(** JavaScript truthiness of a [string | null]: [null] and the empty string
    are falsy. *)
Definition truthy (v : option string) : bool :=
  match v with
  | Some s => negb (String.eqb s "")
  | None => false
  end.

(** [task?.status]: [undefined] unless [data] is a task. *)
Definition statusOf (d : QueryData) : option string :=
  match d with
  | DTask task => Some (status task)
  | _ => None
  end.

(** [task?.detail] *)
Definition detailOf (d : QueryData) : option string :=
  match d with
  | DTask task => detail task
  | _ => None
  end.

(** [task?.app_conversation_id] *)
Definition appConversationIdOf (d : QueryData) : option string :=
  match d with
  | DTask task => app_conversation_id task
  | _ => None
  end.

End Task.

(** ** The world the hook acts on *)

Module World.
Import ConversationLocalStorage Task.

(** The calls the hook makes on its collaborators, in the order made. *)
Inductive Call :=
| GetStartTask (taskId : string)
| InvalidateQueries (queryKey : list string)
| SetConversationState (conversationId : string)
    (updates : PartialConversationState)
| SetSubConversationTaskId (taskId : option string).

#[global] Instance Call_eq_dec : EqDecision Call.
Proof. solve_decision. Defined.

(** The state of the query [["sub-conversation-task", taskId]]. *)
Record QueryState := mkQueryState {
  data : QueryData;
  error : option string;
  isFetching : bool
}.

(** React Query's [isLoading]: a fetch is in flight and the query has
    neither data nor an error yet. *)
Definition isLoading (query : QueryState) : bool :=
  isFetching query
  && bool_decide (data query = DUndefined)
  && bool_decide (error query = None).

Record World := mkWorld {
  (** persisted per-conversation records *)
  localStorage : LocalStorage;
  (** the [subConversationTaskId] field of the in-memory conversation store *)
  storeSubConversationTaskId : option string;
  (** the query observed by the hook *)
  taskQuery : QueryState;
  (** dependencies of the hook's effect at its last run, if it has run *)
  effectDeps : option (QueryData * option string);
  (** every call made so far, oldest first *)
  calls : list Call
}.

Definition withLocalStorage (ls : LocalStorage) (w : World) : World :=
  mkWorld ls (storeSubConversationTaskId w) (taskQuery w) (effectDeps w)
          (calls w).

Definition withStore (v : option string) (w : World) : World :=
  mkWorld (localStorage w) v (taskQuery w) (effectDeps w) (calls w).

Definition withTaskQuery (q : QueryState) (w : World) : World :=
  mkWorld (localStorage w) (storeSubConversationTaskId w) q (effectDeps w)
          (calls w).

Definition withEffectDeps (d : QueryData * option string) (w : World) : World :=
  mkWorld (localStorage w) (storeSubConversationTaskId w) (taskQuery w)
          (Some d) (calls w).

Definition logCall (c : Call) (w : World) : World :=
  mkWorld (localStorage w) (storeSubConversationTaskId w) (taskQuery w)
          (effectDeps w) (calls w ++ [c]).

(** Computations that read and update the world. *)
Definition M (A : Type) : Type := World → A * World.

#[global] Instance M_ret : MRet M := λ A a w, (a, w).
#[global] Instance M_bind : MBind M :=
  λ A B f m w, let '(a, w') := m w in f a w'.

Definition exec {A} (m : M A) (w : World) : World := (m w).2.
Definition eval {A} (m : M A) (w : World) : A := (m w).1.

Definition modify (f : World → World) : M unit := λ w, (tt, f w).
Definition gets {A} (f : World → A) : M A := λ w, (f w, w).

(** [queryClient.invalidateQueries({ queryKey })] *)
Definition invalidateQueries (queryKey : list string) : M unit :=
  modify (logCall (InvalidateQueries queryKey)).

(** The call [setConversationState(conversationId, updates)] on the
    browser's storage. *)
Definition callSetConversationState (conversationId : string)
    (updates : PartialConversationState) : M unit :=
  modify (λ w,
    withLocalStorage
      (setConversationState (localStorage w) conversationId updates)
      (logCall (SetConversationState conversationId updates) w)).

(** Modelled from the spec: the setter [setSubConversationTaskId] exposed by
    [useConversationStore] (stores/conversation-store is not among the
    sources).  It sets the sub-conversation task id field of the store. *)
Definition setSubConversationTaskId (v : option string) : M unit :=
  modify (λ w, withStore v (logCall (SetSubConversationTaskId v) w)).

(** The number of cache invalidations among some calls. *)
Definition isInvalidation (c : Call) : bool :=
  match c with InvalidateQueries _ => true | _ => false end.

Definition invalidationCount (cs : list Call) : nat :=
  length (filter (λ c, isInvalidation c = true) cs).

Definition isFetch (c : Call) : bool :=
  match c with GetStartTask _ => true | _ => false end.

Definition fetchCount (cs : list Call) : nat :=
  length (filter (λ c, isFetch c = true) cs).

End World.

(** ** The React primitives the hook is written with *)

Module React.
Import Task World.

(** [useEffect(body, deps)]: the body runs after the first render and after
    every render in which some dependency differs from its value at the
    previous run.  Dependencies that never change between renders (the query
    client, the store's setter) are left out of [deps]. *)
Definition useEffect (deps : QueryData * option string) (body : M unit)
  : M unit :=
  λ w, if decide (effectDeps w = Some deps) then (tt, w)
       else body (withEffectDeps deps w).

(** [useQuery(options)]: the component reads the current state of the query.
    When the query is fetched is decided by the observer, from [options]; see
    the module [Observer]. *)
Definition useQuery : M QueryState := gets taskQuery.

End React.

(** ** The hook, from hooks/query/use-sub-conversation-task-polling *)

Module Hook.
Import ConversationLocalStorage Task World React.

(** How the promise returned by [queryFn] settles. *)
Inductive Promise :=
| Fulfilled (value : QueryData)
| Rejected (reason : string).

(** The promise of a call that the service answers with [reply]. *)
Definition promiseOf (reply : Reply) : Promise :=
  match reply with
  | Resolves task => Fulfilled (DTask task)
  | Rejects err => Rejected err
  end.

(** [V1ConversationService.getStartTask(taskId)]; [reply] is what the remote
    service answers to this call. *)
Definition getStartTask (taskId : string) (reply : Reply) : M Promise :=
  modify (logCall (GetStartTask taskId)) ;;
  mret (promiseOf reply).

(** [queryFn: async () => { if (!taskId) return null;
                            return V1ConversationService.getStartTask(taskId); }] *)
Definition queryFn (taskId : option string) (reply : Reply) : M Promise :=
  match taskId with
  | None => mret (Fulfilled DNull)
  | Some tid =>
      if String.eqb tid "" then mret (Fulfilled DNull)
      else getStartTask tid reply
  end.

(** [enabled: !!taskId && !!parentConversationId] *)
Definition enabled (taskId parentConversationId : option string) : bool :=
  truthy taskId && truthy parentConversationId.

(** [task.status === "READY" || task.status === "ERROR"] *)
Definition isTerminal (s : string) : bool :=
  String.eqb s "READY" || String.eqb s "ERROR".

(** [refetchInterval: (query) => ...]: [false] is [None], a delay in
    milliseconds is [Some]. *)
Definition refetchInterval (query : QueryState) : option Z :=
  match data query with
  | DTask task =>
      if isTerminal (status task) then None else Some 3000%Z
  | DUndefined | DNull => None
  end.

(** The condition [task?.status === "READY" && task.app_conversation_id]. *)
Definition readyWithConversation (task : QueryData) : bool :=
  bool_decide (statusOf task = Some "READY")
  && truthy (appConversationIdOf task).

(** The condition [task?.status === "ERROR"]. *)
Definition failed (task : QueryData) : bool :=
  bool_decide (statusOf task = Some "ERROR").

(** The body of the hook's effect. *)
Definition settle (task : QueryData) (parentConversationId : option string)
  : M unit :=
  match parentConversationId with
  | None => mret tt
  | Some parent =>
      if String.eqb parent "" then mret tt
      else if readyWithConversation task then
        invalidateQueries ["user"; "conversation"; parent] ;;
        callSetConversationState parent (onlySubConversationTaskId None) ;;
        setSubConversationTaskId None
      else if failed task then
        callSetConversationState parent (onlySubConversationTaskId None) ;;
        setSubConversationTaskId None
      else mret tt
  end.

(** What the hook returns to the component. *)
Record PollingResult := mkPollingResult {
  task : QueryData;
  taskStatus : option string;
  taskDetail : option string;
  taskError : option string;
  isLoadingTask : bool;
  subConversationId : option string
}.

(** One render of the hook. *)
Definition useSubConversationTaskPolling
    (taskId parentConversationId : option string) : M PollingResult :=
  taskQuery ← useQuery;
  useEffect (data taskQuery, parentConversationId)
            (settle (data taskQuery) parentConversationId) ;;
  mret {| task := data taskQuery;
          taskStatus := statusOf (data taskQuery);
          taskDetail := detailOf (data taskQuery);
          taskError := error taskQuery;
          isLoadingTask := isLoading taskQuery;
          subConversationId := appConversationIdOf (data taskQuery) |}.

End Hook.

(** ** The query observer driving the hook *)

Module Observer.
Import Task World React Hook.

(** The query state after a fetch has settled.  A success replaces the
    data and clears the error; a rejection leaves the data of the last
    successful fetch in place and records the error. *)
Definition receive (outcome : Promise) (query : QueryState) : QueryState :=
  match outcome with
  | Fulfilled value => mkQueryState value None false
  | Rejected reason => mkQueryState (data query) (Some reason) false
  end.

(** The world once the fetch of task [taskId], answered with [reply], has
    settled. *)
Definition afterFetch (taskId : string) (reply : Reply) (w : World) : World :=
  withTaskQuery (receive (promiseOf reply) (taskQuery w))
                (logCall (GetStartTask taskId) w).

(** One fetch.  The hook passes [retry: false], so a rejected fetch is not
    repeated: the rejection becomes the query's error at once. *)
Definition fetch (taskId : option string) (reply : Reply) : M unit :=
  outcome ← queryFn taskId reply;
  modify (λ w, withTaskQuery (receive outcome (taskQuery w)) w).

(** One poll: if the query is enabled, fetch, render the hook again with the
    new query state, and evaluate [refetchInterval] on it to arm the timer
    ([Some delay]) or leave it off ([None]).  A disabled query is never
    fetched and has no timer. *)
Definition poll (taskId parentConversationId : option string) (reply : Reply)
  : M (PollingResult * option Z) :=
  if enabled taskId parentConversationId then
    fetch taskId reply ;;
    result ← useSubConversationTaskPolling taskId parentConversationId;
    next ← gets (λ w, refetchInterval (taskQuery w));
    mret (result, next)
  else
    result ← useSubConversationTaskPolling taskId parentConversationId;
    mret (result, None).

(** Polling by the timer against the successive answers of the service:
    the first fetch is issued at once, each later one when the timer armed
    by the previous poll fires.  The boolean tells whether a timer is still
    armed at the end.  The fetches that a window focus or a reconnect starts
    are not part of this loop; see [refetchLoop] and [lifetime]. *)
Fixpoint pollLoop (taskId parentConversationId : option string)
    (replies : list Reply) : M bool :=
  match replies with
  | [] => mret true
  | reply :: later =>
      '(_, next) ← poll taskId parentConversationId reply;
      match next with
      | Some _ => pollLoop taskId parentConversationId later
      | None => mret false
      end
  end.

(** The observer starts a fetch. *)
Definition startFetching (w : World) : World :=
  withTaskQuery
    (mkQueryState (data (taskQuery w)) (error (taskQuery w)) true) w.

(** Mounting the component: the first render, with the first fetch in
    flight if the query is enabled, then polling by the timer. *)
Definition mount (taskId parentConversationId : option string)
    (replies : list Reply) : M bool :=
  (if enabled taskId parentConversationId
   then modify startFetching else mret tt) ;;
  useSubConversationTaskPolling taskId parentConversationId ;;
  if enabled taskId parentConversationId
  then pollLoop taskId parentConversationId replies
  else mret false.

(** What can start a fetch of a mounted query besides the first render:
    the timer armed from [refetchInterval], the window regaining focus, and
    the network coming back.  The hook passes neither [refetchOnWindowFocus]
    nor [refetchOnReconnect] nor [staleTime], so React Query's defaults
    apply: both refetch an enabled query whenever they occur. *)
Inductive Trigger :=
| TimerFires
| WindowFocus
| Reconnect.

#[global] Instance Trigger_eq_dec : EqDecision Trigger.
Proof. solve_decision. Defined.

(** Whether a trigger starts a fetch: the timer only while it is armed,
    a focus or a reconnect always. *)
Definition fires (trigger : Trigger) (armed : bool) : bool :=
  match trigger with
  | TimerFires => armed
  | WindowFocus | Reconnect => true
  end.

(** The mounted hook against a sequence of events, each with the answer the
    service gives if the event starts a fetch.  An event that starts none
    (a timer that is not armed, any event on a disabled query) passes
    without effect.  [armed] tells whether the timer is armed at the start,
    the result whether it is at the end. *)
Fixpoint refetchLoop (taskId parentConversationId : option string)
    (events : list (Trigger * Reply)) (armed : bool) : M bool :=
  match events with
  | [] => mret armed
  | (trigger, reply) :: later =>
      if fires trigger armed && enabled taskId parentConversationId then
        '(_, next) ← poll taskId parentConversationId reply;
        refetchLoop taskId parentConversationId later
                    (bool_decide (is_Some next))
      else refetchLoop taskId parentConversationId later armed
  end.

(** The whole life of a mounted hook: the first render and the timer's
    polls against [replies], then the [events] that follow. *)
Definition lifetime (taskId parentConversationId : option string)
    (replies : list Reply) (events : list (Trigger * Reply)) : M bool :=
  armed ← mount taskId parentConversationId replies;
  refetchLoop taskId parentConversationId events armed.

(** Whether an answer is a task that the effect settles with an
    invalidation. *)
Definition isReadyAnswer (reply : Reply) : bool :=
  match reply with
  | Resolves task => readyWithConversation (DTask task)
  | Rejects _ => false
  end.

(** The calls the effect body makes, on behalf of a parent conversation
    that is not empty, when it runs on [task]. *)
Definition settlementCalls (parent : string) (task : QueryData) : list Call :=
  if readyWithConversation task then
    [InvalidateQueries ["user"; "conversation"; parent];
     SetConversationState parent
       (ConversationLocalStorage.onlySubConversationTaskId None);
     SetSubConversationTaskId None]
  else if failed task then
    [SetConversationState parent
       (ConversationLocalStorage.onlySubConversationTaskId None);
     SetSubConversationTaskId None]
  else [].

(** The calls of one fetch of task [taskId]: the request, then, if the
    effect ran on the answer, the settlement of the task it returned. *)
Definition fetchBlock (taskId parent : string) (fetched : Reply * bool)
  : list Call :=
  GetStartTask taskId
  :: (if fetched.2 then
        match fetched.1 with
        | Resolves task => settlementCalls parent (DTask task)
        | Rejects _ => []
        end
      else []).

(** A freshly loaded page: given storage and store contents, nothing
    rendered or called yet. *)
Definition freshWorld (ls : ConversationLocalStorage.LocalStorage)
    (store : option string) : World :=
  mkWorld ls store (mkQueryState DUndefined None false) None [].

End Observer.

(** ** The fixture of the hook's test suite *)

Module Scenario.
Import ConversationLocalStorage Task World Observer.

(** [makeTask(status, appConversationId = null)] of the test suite. *)
Definition makeTask (status : string) (appConversationId : option string)
  : V1AppConversationStartTask :=
  {| task_id := "task-123";
     status := status;
     detail := None;
     app_conversation_id := appConversationId |}.

Definition taskId : option string := Some "task-123".
Definition parentConversationId : option string := Some "parent-conv-123".

(** A page on which the parent conversation tracks the task, in the
    persisted record and in the store, before the hook is mounted. *)
Definition tracking : World :=
  freshWorld
    {[ conversationStateKey "parent-conv-123" :=
         mkPartial (Some "changes") (Some false) (Some ["tab-1"])
                   (Some (Some "task-123")) ]}
    (Some "task-123").

(** The same page once the hook is mounted and its first fetch is under
    way. *)
Definition mounted : World :=
  exec (mount taskId parentConversationId []) tracking.

End Scenario.

(** ** What the hook may call *)

Module Scope.
Import ConversationLocalStorage Task World.

(** The calls that belong to a hook mounted with [taskId] and
    [parentConversationId]: a fetch of that very task, an invalidation of
    the parent conversation's key, a write of
    [{ subConversationTaskId: null }] to the parent's record, or a reset of
    the store's field to [null]. *)
Definition scopedCall (taskId parentConversationId : option string)
    (c : Call) : Prop :=
  match c with
  | GetStartTask requested =>
      taskId = Some requested ∧ requested ≠ ""
      ∧ truthy parentConversationId = true
  | InvalidateQueries queryKey =>
      ∃ parent, parentConversationId = Some parent ∧ parent ≠ ""
                ∧ queryKey = ["user"; "conversation"; parent]
  | SetConversationState conversationId updates =>
      parentConversationId = Some conversationId ∧ conversationId ≠ ""
      ∧ updates = onlySubConversationTaskId None
  | SetSubConversationTaskId value =>
      value = None ∧ truthy parentConversationId = true
  end.

End Scope.

(** ** Advanced settings, from utils/has-advanced-settings-set *)

Module AdvancedSettings.

(** A property of a settings object that [Settings] types as a string:
    the key may be absent, or present with [undefined], [null] or a
    string. *)
Inductive Property :=
| Absent
| Undefined
| Null
| Text (s : string).

(** What reading such a property yields. *)
Inductive Value :=
| VUndefined
| VNull
| VText (s : string).

#[global] Instance Value_eq_dec : EqDecision Value.
Proof. solve_decision. Defined.

Definition valueOf (p : Property) : Value :=
  match p with
  | Absent | Undefined => VUndefined
  | Null => VNull
  | Text s => VText s
  end.

(** [!!v] *)
Definition truthyValue (v : Value) : bool :=
  match v with
  | VText s => negb (String.eqb s "")
  | VUndefined | VNull => false
  end.

(** A [Partial<Settings>], as far as the function looks at it: the two
    properties it reads, and how many other own keys the object has. *)
Record PartialSettings := mkPartialSettings {
  llm_base_url : Property;
  agent : Property;
  otherKeys : nat
}.

Definition isPresent (p : Property) : nat :=
  match p with Absent => 0 | _ => 1 end.

(** [Object.keys(settings).length] *)
Definition keyCount (settings : PartialSettings) : nat :=
  isPresent (llm_base_url settings) + isPresent (agent settings)
  + otherKeys settings.

(** [hasAdvancedSettingsSet(settings)].  [DEFAULT_SETTINGS], declared in
    services/settings, is not among the sources and is an argument here. *)
Definition hasAdvancedSettingsSet (DEFAULT_SETTINGS settings : PartialSettings)
  : bool :=
  (0 <? keyCount settings)%nat
  && (truthyValue (valueOf (llm_base_url settings))
      || negb (bool_decide (valueOf (agent settings)
                            = valueOf (agent DEFAULT_SETTINGS)))).

(** [{ ...settings, llm_base_url: url }] *)
Definition withLlmBaseUrl (url : string) (settings : PartialSettings)
  : PartialSettings :=
  mkPartialSettings (Text url) (agent settings) (otherKeys settings).

(** [{ ...settings, agent: name }] *)
Definition withAgent (name : string) (settings : PartialSettings)
  : PartialSettings :=
  mkPartialSettings (llm_base_url settings) (Text name) (otherKeys settings).

(** [{}] *)
Definition noSettings : PartialSettings := mkPartialSettings Absent Absent 0.

End AdvancedSettings.

(** ** JSON values and JavaScript objects *)

Module Js.

(** A JSON value, as [request.json()] and [HttpResponse.json] exchange
    them.  Numbers are restricted to integers; only whether a number is
    zero matters below. *)
#[warnings="-register-all"]
Inductive Json :=
| JNull
| JBool (b : bool)
| JNumber (n : Z)
| JString (s : string)
| JArray (items : list Json)
| JObject (fields : gmap string Json).

(** [!!v] *)
Definition truthyJson (v : Json) : bool :=
  match v with
  | JNull => false
  | JBool b => b
  | JNumber n => negb (n =? 0)%Z
  | JString s => negb (String.eqb s "")
  | JArray _ | JObject _ => true
  end.

(** [typeof v === "object"]: [null], arrays and objects. *)
Definition typeofObject (v : Json) : bool :=
  match v with
  | JNull | JArray _ | JObject _ => true
  | JBool _ | JNumber _ | JString _ => false
  end.

(** The characters of a string, each as a one-character string. *)
Fixpoint characters (s : string) : list Json :=
  match s with
  | EmptyString => []
  | String c rest => JString (String c EmptyString) :: characters rest
  end.

(** An array-like value as an object: index [i] under the key that is the
    decimal numeral of [i]. *)
Definition indexed (items : list Json) : gmap string Json :=
  list_to_map (imap (λ i item, (pretty i, item)) items).

(** The own enumerable string-keyed properties of a value, which object
    spread [{ ...v }] copies and [Object.entries(v)] lists: the fields of an
    object, the indices of an array or of a string, and nothing for the
    other primitives. *)
Definition ownProperties (v : Json) : gmap string Json :=
  match v with
  | JObject fields => fields
  | JArray items => indexed items
  | JString s => indexed (characters s)
  | JNull | JBool _ | JNumber _ => ∅
  end.

(** [v?.[key]] for a key that is no index and not [length]: [undefined]
    ([None]) unless [v] is an object holding the key. *)
Definition getProperty (key : string) (v : Json) : option Json :=
  match v with
  | JObject fields => fields !! key
  | _ => None
  end.

(** [{ ...target, ...source }] *)
Definition spread (target : gmap string Json) (source : Json)
  : gmap string Json :=
  ownProperties source ∪ target.

End Js.

(** ** The application configuration *)

Module Config.

Record FeatureFlags := mkFeatureFlags {
  ENABLE_BILLING : bool;
  HIDE_LLM_SETTINGS : bool;
  ENABLE_JIRA : bool;
  ENABLE_JIRA_DC : bool;
  ENABLE_LINEAR : bool
}.

(** [GetConfigResponse], with the fields the sources read or write. *)
Record GetConfigResponse := mkConfig {
  APP_MODE : string;
  APP_SLUG : option string;
  GITHUB_CLIENT_ID : string;
  POSTHOG_CLIENT_KEY : string;
  FEATURE_FLAGS : option FeatureFlags
}.

End Config.

(** ** The settings navigation, from hooks/use-settings-nav-items *)

Module SettingsNav.
Import Config.

Section Items.
(** The navigation items and the two lists of constants/settings-nav, which
    is not among the sources; of an item only its route [to] is read. *)
Context {Item : Type} (to : Item → string).
Variables SAAS_NAV_ITEMS OSS_NAV_ITEMS : list Item.

(** [!!config?.FEATURE_FLAGS?.HIDE_LLM_SETTINGS] *)
Definition shouldHideLlmSettings (config : option GetConfigResponse) : bool :=
  match config with
  | Some c =>
      match FEATURE_FLAGS c with
      | Some flags => HIDE_LLM_SETTINGS flags
      | None => false
      end
  | None => false
  end.

(** [config?.APP_MODE === "saas"] *)
Definition isSaasMode (config : option GetConfigResponse) : bool :=
  match config with
  | Some c => String.eqb (APP_MODE c) "saas"
  | None => false
  end.

(** [useSettingsNavItems()], given what [useConfig()] currently holds
    ([None] while the configuration is loading). *)
Definition useSettingsNavItems (config : option GetConfigResponse)
  : list Item :=
  let items := if isSaasMode config then SAAS_NAV_ITEMS else OSS_NAV_ITEMS in
  if shouldHideLlmSettings config
  then filter (λ item, to item ≠ "/settings") items
  else items.

End Items.

End SettingsNav.

(** ** The mock settings server, from mocks/settings-handlers *)

Module MockSettings.
Import Js Config.

Record Response := mkResponse {
  status : nat;
  body : Json
}.

Section Handlers.
(** [DEFAULT_SETTINGS] of services/settings is not among the sources: the
    value of each of its properties is an argument. *)
Variable DEFAULT_SETTINGS : string → Json.

Definition MOCK_DEFAULT_USER_SETTINGS : gmap string Json :=
  list_to_map
    [("llm_model", DEFAULT_SETTINGS "LLM_MODEL");
     ("llm_base_url", DEFAULT_SETTINGS "LLM_BASE_URL");
     ("llm_api_key", JNull);
     ("llm_api_key_set", DEFAULT_SETTINGS "LLM_API_KEY_SET");
     ("search_api_key_set", DEFAULT_SETTINGS "SEARCH_API_KEY_SET");
     ("agent", DEFAULT_SETTINGS "AGENT");
     ("language", DEFAULT_SETTINGS "LANGUAGE");
     ("confirmation_mode", DEFAULT_SETTINGS "CONFIRMATION_MODE");
     ("security_analyzer", DEFAULT_SETTINGS "SECURITY_ANALYZER");
     ("remote_runtime_resource_factor",
      DEFAULT_SETTINGS "REMOTE_RUNTIME_RESOURCE_FACTOR");
     ("provider_tokens_set", JObject ∅);
     ("enable_default_condenser", DEFAULT_SETTINGS "ENABLE_DEFAULT_CONDENSER");
     ("condenser_max_size", DEFAULT_SETTINGS "CONDENSER_MAX_SIZE");
     ("enable_sound_notifications",
      DEFAULT_SETTINGS "ENABLE_SOUND_NOTIFICATIONS");
     ("enable_proactive_conversation_starters",
      DEFAULT_SETTINGS "ENABLE_PROACTIVE_CONVERSATION_STARTERS");
     ("enable_solvability_analysis",
      DEFAULT_SETTINGS "ENABLE_SOLVABILITY_ANALYSIS");
     ("user_consents_to_analytics",
      DEFAULT_SETTINGS "USER_CONSENTS_TO_ANALYTICS");
     ("max_budget_per_task", DEFAULT_SETTINGS "MAX_BUDGET_PER_TASK")].

(** [MOCK_USER_PREFERENCES.settings]: [null] or a settings object. *)
Definition initialSettings : option (gmap string Json) := None.

(** [resetTestHandlersMockSettings()] *)
Definition resetTestHandlersMockSettings (settings : option (gmap string Json))
  : option (gmap string Json) :=
  Some MOCK_DEFAULT_USER_SETTINGS.

(** [GET /api/settings] *)
Definition getSettings (settings : option (gmap string Json)) : Response :=
  match settings with
  | None => mkResponse 404 JNull
  | Some stored => mkResponse 200 (JObject stored)
  end.

(** [POST /api/settings], with the parsed request body. *)
Definition postSettings (requestBody : Json)
    (settings : option (gmap string Json))
  : Response * option (gmap string Json) :=
  if truthyJson requestBody then
    let current := default MOCK_DEFAULT_USER_SETTINGS settings in
    (mkResponse 200 JNull, Some (spread current requestBody))
  else (mkResponse 400 JNull, settings).

(** [POST /api/reset-settings] *)
Definition postResetSettings (settings : option (gmap string Json))
  : Response * option (gmap string Json) :=
  (mkResponse 200 JNull, Some MOCK_DEFAULT_USER_SETTINGS).

(** [val && val.token] *)
Definition tokenGiven (val : Json) : bool :=
  truthyJson val
  && match getProperty "token" val with
     | Some token => truthyJson token
     | None => false
     end.

(** The object built from [Object.entries(rawTokens)]: the providers whose
    entry carries a token, each mapped to the empty string. *)
Definition providerTokensSet (rawTokens : Json) : gmap string Json :=
  (λ _, JString "")
    <$> filter (λ entry, tokenGiven entry.2 = true) (ownProperties rawTokens).

(** [typeof body === "object" && body?.provider_tokens]: the tokens if the
    condition is truthy. *)
Definition providerTokensOf (requestBody : Json) : option Json :=
  if typeofObject requestBody then
    match getProperty "provider_tokens" requestBody with
    | Some rawTokens => if truthyJson rawTokens then Some rawTokens else None
    | None => None
    end
  else None.

(** [POST /api/add-git-providers], with the parsed request body. *)
Definition postAddGitProviders (requestBody : Json)
    (settings : option (gmap string Json))
  : Response * option (gmap string Json) :=
  match providerTokensOf requestBody with
  | Some rawTokens =>
      (mkResponse 200 (JBool true),
       Some (<[ "provider_tokens_set" := JObject (providerTokensSet rawTokens) ]>
               (default MOCK_DEFAULT_USER_SETTINGS settings)))
  | None => (mkResponse 400 JNull, settings)
  end.

End Handlers.

(** The models served by [GET /api/options/models]. *)
Definition MODELS : list string :=
  ["gpt-3.5-turbo";
   "gpt-4o";
   "gpt-4o-mini";
   "anthropic/claude-3.5";
   "anthropic/claude-sonnet-4-20250514";
   "anthropic/claude-sonnet-4-5-20250929";
   "anthropic/claude-haiku-4-5-20251001";
   "openhands/claude-sonnet-4-20250514";
   "openhands/claude-sonnet-4-5-20250929";
   "openhands/claude-haiku-4-5-20251001";
   "sambanova/Meta-Llama-3.1-8B-Instruct"].

(** [GET /api/options/config]; the argument is the value of
    [import.meta.env.VITE_MOCK_SAAS], if set. *)
Definition getConfig (VITE_MOCK_SAAS : option string) : GetConfigResponse :=
  let mockSaas := bool_decide (VITE_MOCK_SAAS = Some "true") in
  {| APP_MODE := if mockSaas then "saas" else "oss";
     APP_SLUG := None;
     GITHUB_CLIENT_ID := "fake-github-client-id";
     POSTHOG_CLIENT_KEY := "fake-posthog-client-key";
     FEATURE_FLAGS :=
       Some {| ENABLE_BILLING := false;
               HIDE_LLM_SETTINGS := mockSaas;
               ENABLE_JIRA := false;
               ENABLE_JIRA_DC := false;
               ENABLE_LINEAR := false |} |}.

(** The configuration as the JSON document [HttpResponse.json] sends. *)
Definition configJson (config : GetConfigResponse) : Json :=
  JObject
    (list_to_map
       ([("APP_MODE", JString (APP_MODE config));
         ("GITHUB_CLIENT_ID", JString (GITHUB_CLIENT_ID config));
         ("POSTHOG_CLIENT_KEY", JString (POSTHOG_CLIENT_KEY config))]
        ++ match FEATURE_FLAGS config with
           | Some flags =>
               [("FEATURE_FLAGS",
                 JObject
                   (list_to_map
                      [("ENABLE_BILLING", JBool (ENABLE_BILLING flags));
                       ("HIDE_LLM_SETTINGS", JBool (HIDE_LLM_SETTINGS flags));
                       ("ENABLE_JIRA", JBool (ENABLE_JIRA flags));
                       ("ENABLE_JIRA_DC", JBool (ENABLE_JIRA_DC flags));
                       ("ENABLE_LINEAR", JBool (ENABLE_LINEAR flags))]))]
           | None => []
           end)).

(** [SETTINGS_HANDLERS]: the handler of a request, chosen by method and
    path, applied to the parsed request body and to the stored settings;
    [None] when no handler of the list matches. *)
Definition SETTINGS_HANDLERS (DEFAULT_SETTINGS : string → Json)
    (VITE_MOCK_SAAS : option string) (method path : string)
    (requestBody : Json) (settings : option (gmap string Json))
  : option (Response * option (gmap string Json)) :=
  if bool_decide (method = "GET" ∧ path = "/api/options/models") then
    Some (mkResponse 200 (JArray (JString <$> MODELS)), settings)
  else if bool_decide (method = "GET" ∧ path = "/api/options/agents") then
    Some (mkResponse 200 (JArray [JString "CodeActAgent"; JString "CoActAgent"]),
          settings)
  else if bool_decide (method = "GET"
                       ∧ path = "/api/options/security-analyzers") then
    Some (mkResponse 200 (JArray [JString "llm"; JString "none"]), settings)
  else if bool_decide (method = "GET" ∧ path = "/api/options/config") then
    Some (mkResponse 200 (configJson (getConfig VITE_MOCK_SAAS)), settings)
  else if bool_decide (method = "GET" ∧ path = "/api/settings") then
    Some (getSettings settings, settings)
  else if bool_decide (method = "POST" ∧ path = "/api/settings") then
    Some (postSettings DEFAULT_SETTINGS requestBody settings)
  else if bool_decide (method = "POST" ∧ path = "/api/reset-settings") then
    Some (postResetSettings DEFAULT_SETTINGS settings)
  else if bool_decide (method = "POST" ∧ path = "/api/add-git-providers") then
    Some (postAddGitProviders DEFAULT_SETTINGS requestBody settings)
  else None.

End MockSettings.

(** ** The Git settings form, from routes/git-settings *)

Module GitSettings.

(** [formData.get(name)] on the entries of a submitted form, in order: the
    value of the first entry of that name, [null] without one.  Every
    control of this form submits text. *)
Fixpoint get (name : string) (formData : list (string * string))
  : option string :=
  match formData with
  | [] => None
  | (key, value) :: rest =>
      if String.eqb key name then Some value else get name rest
  end.

(** [formData.get(name)?.toString() || ""] *)
Definition textOf (name : string) (formData : list (string * string))
  : string :=
  default "" (get name formData).

Record ProviderToken := mkProviderToken {
  token : string;
  host : string
}.

Record Providers := mkProviders {
  github : ProviderToken;
  gitlab : ProviderToken;
  azure_devops : ProviderToken;
  bitbucket : ProviderToken
}.

(** What submitting the form triggers: [disconnectGitTokens()] or
    [saveGitProviders({ providers }, callbacks)]. *)
Inductive Submission :=
| DisconnectGitTokens
| SaveGitProviders (providers : Providers).

(** [formAction(formData)] *)
Definition formAction (formData : list (string * string)) : Submission :=
  let disconnectButtonClicked :=
    bool_decide (get "disconnect-tokens-button" formData ≠ None) in
  if disconnectButtonClicked then DisconnectGitTokens
  else
    let githubToken := textOf "github-token-input" formData in
    let gitlabToken := textOf "gitlab-token-input" formData in
    let azureDevOpsToken := textOf "azure-devops-token-input" formData in
    let githubHost := textOf "github-host-input" formData in
    let gitlabHost := textOf "gitlab-host-input" formData in
    let azureDevOpsHost := textOf "azure-devops-host-input" formData in
    let bitbucketToken := textOf "bitbucket-token-input" formData in
    let bitbucketHost := textOf "bitbucket-host-input" formData in
    SaveGitProviders
      {| github := mkProviderToken githubToken githubHost;
         gitlab := mkProviderToken gitlabToken gitlabHost;
         azure_devops := mkProviderToken azureDevOpsToken azureDevOpsHost;
         bitbucket := mkProviderToken bitbucketToken bitbucketHost |}.

(** The eight [useState] flags of the screen. *)
Record InputFlags := mkInputFlags {
  githubTokenInputHasValue : bool;
  gitlabTokenInputHasValue : bool;
  azureDevOpsTokenInputHasValue : bool;
  bitbucketTokenInputHasValue : bool;
  githubHostInputHasValue : bool;
  gitlabHostInputHasValue : bool;
  azureDevOpsHostInputHasValue : bool;
  bitbucketHostInputHasValue : bool
}.

(** [React.useState(false)] for each. *)
Definition initialFlags : InputFlags :=
  mkInputFlags false false false false false false false false.

(** The eight inputs whose [onChange] handlers set a flag. *)
Inductive Input :=
| GithubToken | GithubHost
| GitlabToken | GitlabHost
| AzureDevOpsToken | AzureDevOpsHost
| BitbucketToken | BitbucketHost.

#[global] Instance Input_eq_dec : EqDecision Input.
Proof. solve_decision. Defined.

(** The flag that belongs to an input. *)
Definition flagOf (input : Input) (flags : InputFlags) : bool :=
  match input with
  | GithubToken => githubTokenInputHasValue flags
  | GithubHost => githubHostInputHasValue flags
  | GitlabToken => gitlabTokenInputHasValue flags
  | GitlabHost => gitlabHostInputHasValue flags
  | AzureDevOpsToken => azureDevOpsTokenInputHasValue flags
  | AzureDevOpsHost => azureDevOpsHostInputHasValue flags
  | BitbucketToken => bitbucketTokenInputHasValue flags
  | BitbucketHost => bitbucketHostInputHasValue flags
  end.

(** The handler of an input, called with the input's text: it sets the
    input's flag to [!!value]. *)
Definition onChange (input : Input) (value : string) (flags : InputFlags)
  : InputFlags :=
  let hasValue := negb (String.eqb value "") in
  match input with
  | GithubToken =>
      mkInputFlags hasValue (gitlabTokenInputHasValue flags)
        (azureDevOpsTokenInputHasValue flags)
        (bitbucketTokenInputHasValue flags) (githubHostInputHasValue flags)
        (gitlabHostInputHasValue flags) (azureDevOpsHostInputHasValue flags)
        (bitbucketHostInputHasValue flags)
  | GitlabToken =>
      mkInputFlags (githubTokenInputHasValue flags) hasValue
        (azureDevOpsTokenInputHasValue flags)
        (bitbucketTokenInputHasValue flags) (githubHostInputHasValue flags)
        (gitlabHostInputHasValue flags) (azureDevOpsHostInputHasValue flags)
        (bitbucketHostInputHasValue flags)
  | AzureDevOpsToken =>
      mkInputFlags (githubTokenInputHasValue flags)
        (gitlabTokenInputHasValue flags) hasValue
        (bitbucketTokenInputHasValue flags) (githubHostInputHasValue flags)
        (gitlabHostInputHasValue flags) (azureDevOpsHostInputHasValue flags)
        (bitbucketHostInputHasValue flags)
  | BitbucketToken =>
      mkInputFlags (githubTokenInputHasValue flags)
        (gitlabTokenInputHasValue flags)
        (azureDevOpsTokenInputHasValue flags) hasValue
        (githubHostInputHasValue flags) (gitlabHostInputHasValue flags)
        (azureDevOpsHostInputHasValue flags)
        (bitbucketHostInputHasValue flags)
  | GithubHost =>
      mkInputFlags (githubTokenInputHasValue flags)
        (gitlabTokenInputHasValue flags)
        (azureDevOpsTokenInputHasValue flags)
        (bitbucketTokenInputHasValue flags) hasValue
        (gitlabHostInputHasValue flags) (azureDevOpsHostInputHasValue flags)
        (bitbucketHostInputHasValue flags)
  | GitlabHost =>
      mkInputFlags (githubTokenInputHasValue flags)
        (gitlabTokenInputHasValue flags)
        (azureDevOpsTokenInputHasValue flags)
        (bitbucketTokenInputHasValue flags) (githubHostInputHasValue flags)
        hasValue (azureDevOpsHostInputHasValue flags)
        (bitbucketHostInputHasValue flags)
  | AzureDevOpsHost =>
      mkInputFlags (githubTokenInputHasValue flags)
        (gitlabTokenInputHasValue flags)
        (azureDevOpsTokenInputHasValue flags)
        (bitbucketTokenInputHasValue flags) (githubHostInputHasValue flags)
        (gitlabHostInputHasValue flags) hasValue
        (bitbucketHostInputHasValue flags)
  | BitbucketHost =>
      mkInputFlags (githubTokenInputHasValue flags)
        (gitlabTokenInputHasValue flags)
        (azureDevOpsTokenInputHasValue flags)
        (bitbucketTokenInputHasValue flags) (githubHostInputHasValue flags)
        (gitlabHostInputHasValue flags) (azureDevOpsHostInputHasValue flags)
        hasValue
  end.

(** The [onSettled] callback of the save: seven setters are called with
    [false]; [setBitbucketHostInputHasValue] is not among them. *)
Definition onSettled (flags : InputFlags) : InputFlags :=
  mkInputFlags false false false false false false false
               (bitbucketHostInputHasValue flags).

Definition formIsClean (flags : InputFlags) : bool :=
  negb (githubTokenInputHasValue flags)
  && negb (gitlabTokenInputHasValue flags)
  && negb (bitbucketTokenInputHasValue flags)
  && negb (azureDevOpsTokenInputHasValue flags)
  && negb (githubHostInputHasValue flags)
  && negb (gitlabHostInputHasValue flags)
  && negb (azureDevOpsHostInputHasValue flags)
  && negb (bitbucketHostInputHasValue flags).

(** [isDisabled={isPending || formIsClean}] of the submit button. *)
Definition submitDisabled (isPending : bool) (flags : InputFlags) : bool :=
  isPending || formIsClean flags.

(** The user's edits, oldest first, applied to the flags. *)
Definition edit (edits : list (Input * string)) (flags : InputFlags)
  : InputFlags :=
  foldl (λ current change, onChange change.1 change.2 current) flags edits.

End GitSettings.

(** ** The PostHog provider, from components/providers/posthog-wrapper *)

Module PostHog.
Import Config.

(** The parts of [window.location] the component reads. *)
Record Location := mkLocation {
  pathname : string;
  search : string;
  hash : string
}.

Record BootstrapIds := mkBootstrapIds {
  distinctID : string;
  sessionID : string
}.

(** [s.substring(1)] *)
Definition substring1 (s : string) : string :=
  match s with
  | EmptyString => EmptyString
  | String _ rest => rest
  end.

(** [params.get(name)]: the value of the first pair of that name. *)
Fixpoint paramsGet (name : string) (params : list (string * string))
  : option string :=
  match params with
  | [] => None
  | (key, value) :: rest =>
      if String.eqb key name then Some value else paramsGet name rest
  end.

(** The location after
    [history.replaceState(null, "", location.pathname + location.search)]:
    the fragment is gone. *)
Definition replaceState (location : Location) : Location :=
  mkLocation (pathname location) (search location) "".

(** What the component renders. *)
Inductive Rendered :=
| Children
| PostHogProvider (apiKey api_host person_profiles : string)
    (bootstrap : option BootstrapIds).

(** How [OptionService.getConfig()] ends. *)
Inductive ConfigReply :=
| ConfigResolves (config : GetConfigResponse)
| ConfigRejects.

(** The component's two [useState] cells, its memoised bootstrap ids, the
    page's location and the error toasts displayed. *)
Record Page := mkPage {
  posthogClientKey : option string;
  isLoading : bool;
  bootstrapIds : option BootstrapIds;
  location : Location;
  errorToasts : list string
}.

Section Browser.
(** [new URLSearchParams(text)], the browser's parser of a query string
    into its name and value pairs. *)
Variable URLSearchParams : string → list (string * string).

(** [getBootstrapFromHash()]: the ids, and the location it leaves. *)
Definition getBootstrapFromHash (location : Location)
  : option BootstrapIds * Location :=
  let params := URLSearchParams (substring1 (hash location)) in
  match paramsGet "ph_distinct_id" params, paramsGet "ph_session_id" params with
  | Some distinctId, Some sessionId =>
      if negb (String.eqb distinctId "") && negb (String.eqb sessionId "")
      then (Some (mkBootstrapIds distinctId sessionId), replaceState location)
      else (None, location)
  | _, _ => (None, location)
  end.

(** The first render: [useState(null)], [useState(true)], and
    [useMemo(() => getBootstrapFromHash(), [])]. *)
Definition firstRender (location : Location) : Page :=
  let '(ids, location') := getBootstrapFromHash location in
  mkPage None true ids location' [].

(** The effect, once the request for the configuration has ended. *)
Definition configLoaded (reply : ConfigReply) (page : Page) : Page :=
  match reply with
  | ConfigResolves config =>
      mkPage (Some (POSTHOG_CLIENT_KEY config)) false (bootstrapIds page)
             (location page) (errorToasts page)
  | ConfigRejects =>
      mkPage (posthogClientKey page) false (bootstrapIds page)
             (location page)
             (errorToasts page ++ ["Error fetching PostHog client key"])
  end.

(** What [PostHogWrapper] returns in a given state. *)
Definition render (page : Page) : Rendered :=
  match posthogClientKey page with
  | Some key =>
      if isLoading page || String.eqb key "" then Children
      else PostHogProvider key "https://us.i.posthog.com" "identified_only"
                           (bootstrapIds page)
  | None => Children
  end.

End Browser.

End PostHog.

(** * Properties *)

Import ConversationLocalStorage Task World React Hook Observer Scope.

(** ** The persisted record *)

Section Storage.
Implicit Types (ls : LocalStorage) (updates stored : PartialConversationState).

Lemma conversationStateKey_prefix (conversationId : string) :
  conversationStateKey conversationId
  = (CONVERSATION_STATE +:+ "-") +:+ conversationId.
Proof. reflexivity. Qed.

(** Conversations do not share a storage key. *)
Lemma conversationStateKey_inj (a b : string) :
  conversationStateKey a = conversationStateKey b → a = b.
Proof.
  unfold conversationStateKey, CONVERSATION_STATE. simpl.
  intros Heq. by simplify_eq.
Qed.

Lemma storedRecord_set ls conversationId updates :
  storedRecord (setConversationState ls conversationId updates) conversationId
  = mergePartial (storedRecord ls conversationId) updates.
Proof.
  unfold storedRecord at 1, setConversationState.
  by rewrite lookup_insert_eq.
Qed.

Lemma storedRecord_set_other ls a b updates :
  a ≠ b →
  storedRecord (setConversationState ls a updates) b = storedRecord ls b.
Proof.
  intros Hne. unfold storedRecord, setConversationState.
  rewrite lookup_insert_ne; [done|].
  intros Heq. by apply Hne, conversationStateKey_inj.
Qed.

Lemma mergePartial_clear_twice stored :
  mergePartial (mergePartial stored (onlySubConversationTaskId None))
               (onlySubConversationTaskId None)
  = mergePartial stored (onlySubConversationTaskId None).
Proof. by destruct stored as [[?|] [?|] [?|] [?|]]. Qed.

Lemma withDefaults_merge stored updates :
  withDefaults DEFAULT_CONVERSATION_STATE (mergePartial stored updates)
  = withDefaults (withDefaults DEFAULT_CONVERSATION_STATE stored) updates.
Proof.
  by destruct stored as [[?|] [?|] [?|] [?|]],
              updates as [[?|] [?|] [?|] [?|]].
Qed.

(** Reading back after a write: the updates laid over the previous state. *)
Lemma getConversationState_set ls conversationId updates :
  getConversationState (setConversationState ls conversationId updates)
                       conversationId
  = withDefaults (getConversationState ls conversationId) updates.
Proof.
  unfold getConversationState.
  by rewrite storedRecord_set, withDefaults_merge.
Qed.

Lemma getConversationState_set_other ls a b updates :
  a ≠ b →
  getConversationState (setConversationState ls a updates) b
  = getConversationState ls b.
Proof.
  intros Hne. unfold getConversationState.
  by rewrite storedRecord_set_other.
Qed.

Lemma getConversationState_cleared ls conversationId :
  subConversationTaskId
    (getConversationState
       (setConversationState ls conversationId (onlySubConversationTaskId None))
       conversationId) = None.
Proof. by rewrite getConversationState_set. Qed.

End Storage.

(** C6.  [setConversationState] is a read-modify-merge: after the write, a
    key of the conversation's stored record holds the value given in the
    partial if the partial names it and its previous value (or absence)
    otherwise.  In particular, with
    [{selectedTab:"changes", rightPanelShown:false, unpinnedTabs:["tab-1"],
      subConversationTaskId:"old"}] persisted, setting
    [{subConversationTaskId:"new"}] leaves exactly that record with
    [subConversationTaskId] changed to ["new"]. *)
Theorem setConversationState_merge_law :
  (∀ (ls : LocalStorage) (conversationId : string)
     (updates : PartialConversationState),
     let before := storedRecord ls conversationId in
     let after :=
       storedRecord (setConversationState ls conversationId updates)
                    conversationId in
     selectedTab_opt after
       = match selectedTab_opt updates with
         | Some v => Some v
         | None => selectedTab_opt before
         end
     ∧ rightPanelShown_opt after
       = match rightPanelShown_opt updates with
         | Some v => Some v
         | None => rightPanelShown_opt before
         end
     ∧ unpinnedTabs_opt after
       = match unpinnedTabs_opt updates with
         | Some v => Some v
         | None => unpinnedTabs_opt before
         end
     ∧ subConversationTaskId_opt after
       = match subConversationTaskId_opt updates with
         | Some v => Some v
         | None => subConversationTaskId_opt before
         end)
  ∧ (∀ conversationId : string,
       let key := conversationStateKey conversationId in
       let persisted : LocalStorage :=
         {[ key := mkPartial (Some "changes") (Some false) (Some ["tab-1"])
                             (Some (Some "old")) ]} in
       setConversationState persisted conversationId
         (onlySubConversationTaskId (Some "new"))
       = {[ key := mkPartial (Some "changes") (Some false) (Some ["tab-1"])
                             (Some (Some "new")) ]}).
Proof.
  split.
  - intros ls conversationId updates. cbv zeta.
    rewrite storedRecord_set.
    by destruct updates as [[?|] [?|] [?|] [?|]].
  - intros conversationId. cbv zeta.
    unfold setConversationState, storedRecord.
    rewrite lookup_singleton_eq. cbn.
    by rewrite insert_singleton_eq.
Qed.

(** C7.  Clearing is idempotent: writing [{subConversationTaskId: null}] a
    second time leaves the storage exactly as the first write left it; and
    when the conversation's [subConversationTaskId] already reads [null],
    the write changes what no reader of any conversation sees. *)
Theorem clear_subConversationTaskId_idempotent
    (ls : LocalStorage) (conversationId : string) :
  setConversationState
    (setConversationState ls conversationId (onlySubConversationTaskId None))
    conversationId (onlySubConversationTaskId None)
  = setConversationState ls conversationId (onlySubConversationTaskId None)
  ∧ (subConversationTaskId (getConversationState ls conversationId) = None →
     ∀ reader : string,
       getConversationState
         (setConversationState ls conversationId
            (onlySubConversationTaskId None)) reader
       = getConversationState ls reader).
Proof.
  split.
  - unfold setConversationState at 1.
    rewrite storedRecord_set, mergePartial_clear_twice.
    unfold setConversationState. by rewrite insert_insert_eq.
  - intros Hnull reader.
    destruct (decide (conversationId = reader)) as [<-|Hne].
    + rewrite getConversationState_set.
      destruct (getConversationState ls conversationId) as [tab shown tabs sub].
      simpl in Hnull. by subst sub.
    + by apply getConversationState_set_other.
Qed.

Lemma clear_subConversationTaskId_idempotent_witness :
  getConversationState
    (setConversationState
       {[ conversationStateKey "conv-123" := onlySubConversationTaskId None ]}
       "conv-123" (onlySubConversationTaskId None)) "conv-123"
  = getConversationState
      {[ conversationStateKey "conv-123" := onlySubConversationTaskId None ]}
      "conv-123".
Proof.
  apply (proj2 (clear_subConversationTaskId_idempotent
                  {[ conversationStateKey "conv-123" :=
                       onlySubConversationTaskId None ]} "conv-123")).
  reflexivity.
Defined.

(** C8.  [getConversationState] returns a complete record: the defaults
    when the conversation has no stored record, and otherwise the stored
    partial record with each missing key replaced by its default.
    [setConversationState] writes the merged record under the key made of
    the fixed prefix followed by the conversation id, and changes no other
    entry of the storage. *)
Theorem getConversationState_defaults_merged_and_key
    (ls : LocalStorage) (conversationId : string)
    (updates : PartialConversationState) :
  getConversationState ls conversationId
  = match ls !! conversationStateKey conversationId with
    | None => DEFAULT_CONVERSATION_STATE
    | Some stored =>
        {| selectedTab :=
             default (selectedTab DEFAULT_CONVERSATION_STATE)
                     (selectedTab_opt stored);
           rightPanelShown :=
             default (rightPanelShown DEFAULT_CONVERSATION_STATE)
                     (rightPanelShown_opt stored);
           unpinnedTabs :=
             default (unpinnedTabs DEFAULT_CONVERSATION_STATE)
                     (unpinnedTabs_opt stored);
           subConversationTaskId :=
             default (subConversationTaskId DEFAULT_CONVERSATION_STATE)
                     (subConversationTaskId_opt stored) |}
    end
  ∧ conversationStateKey conversationId
    = (CONVERSATION_STATE +:+ "-") +:+ conversationId
  ∧ ∀ key : string,
      setConversationState ls conversationId updates !! key
      = if decide (key = conversationStateKey conversationId)
        then Some (mergePartial
                     (default emptyPartial
                        (ls !! conversationStateKey conversationId))
                     updates)
        else ls !! key.
Proof.
  split; [|split].
  - unfold getConversationState, storedRecord.
    by destruct (ls !! conversationStateKey conversationId).
  - apply conversationStateKey_prefix.
  - intros key. unfold setConversationState, storedRecord.
    case_decide as Hkey.
    + subst key. by rewrite lookup_insert_eq.
    + by rewrite lookup_insert_ne.
Qed.

(** C10.  With nothing persisted for the conversation,
    [getConversationState] returns [selectedTab = "editor"],
    [rightPanelShown = true], [unpinnedTabs = []] and
    [subConversationTaskId = null]. *)
Theorem getConversationState_nothing_persisted
    (ls : LocalStorage) (conversationId : string) :
  ls !! conversationStateKey conversationId = None →
  getConversationState ls conversationId
  = {| selectedTab := "editor";
       rightPanelShown := true;
       unpinnedTabs := [];
       subConversationTaskId := None |}.
Proof.
  intros Habsent. unfold getConversationState, storedRecord.
  by rewrite Habsent.
Qed.

Lemma getConversationState_nothing_persisted_witness :
  getConversationState ∅ "conv-123"
  = {| selectedTab := "editor";
       rightPanelShown := true;
       unpinnedTabs := [];
       subConversationTaskId := None |}.
Proof.
  apply (getConversationState_nothing_persisted ∅ "conv-123").
  apply lookup_empty.
Defined.

(** ** The poller *)

Section Polling.
Implicit Types (w : World) (t : V1AppConversationStartTask) (d : QueryData).
Implicit Types (tid pid : string) (taskId parentConversationId : option string).

Lemma enabled_spec tid pid :
  enabled (Some tid) (Some pid) = true ↔ tid ≠ "" ∧ pid ≠ "".
Proof.
  unfold enabled, truthy.
  by rewrite andb_true_iff, !negb_true_iff, !String.eqb_neq.
Qed.

Lemma enabled_inv taskId parentConversationId :
  enabled taskId parentConversationId = true →
  ∃ tid pid, taskId = Some tid ∧ parentConversationId = Some pid
             ∧ tid ≠ "" ∧ pid ≠ "".
Proof.
  destruct taskId as [tid|], parentConversationId as [pid|];
    try (unfold enabled; simpl; rewrite ?andb_false_r; discriminate).
  intros He. exists tid, pid. by apply enabled_spec in He.
Qed.

Lemma isTerminal_false (s : string) :
  isTerminal s = false ↔ s ≠ "READY" ∧ s ≠ "ERROR".
Proof. unfold isTerminal. by rewrite orb_false_iff, !String.eqb_neq. Qed.

(** *** The effect body, case by case *)

Lemma settle_no_parent d w : settle d None w = ((), w).
Proof. reflexivity. Qed.

Lemma settle_empty_parent d w : settle d (Some "") w = ((), w).
Proof. reflexivity. Qed.

Lemma settle_ready d pid w :
  pid ≠ "" → readyWithConversation d = true →
  settle d (Some pid) w
  = ((), mkWorld
           (setConversationState (localStorage w) pid
              (onlySubConversationTaskId None))
           None (taskQuery w) (effectDeps w)
           (calls w ++ [InvalidateQueries ["user"; "conversation"; pid];
                        SetConversationState pid
                          (onlySubConversationTaskId None);
                        SetSubConversationTaskId None])).
Proof.
  intros Hpid Hready. apply String.eqb_neq in Hpid.
  unfold settle. rewrite Hpid, Hready.
  unfold invalidateQueries, callSetConversationState,
    setSubConversationTaskId, modify, mbind, M_bind,
    withStore, withLocalStorage, logCall.
  cbn. by rewrite <- !app_assoc.
Qed.

Lemma settle_failed d pid w :
  pid ≠ "" → readyWithConversation d = false → failed d = true →
  settle d (Some pid) w
  = ((), mkWorld
           (setConversationState (localStorage w) pid
              (onlySubConversationTaskId None))
           None (taskQuery w) (effectDeps w)
           (calls w ++ [SetConversationState pid
                          (onlySubConversationTaskId None);
                        SetSubConversationTaskId None])).
Proof.
  intros Hpid Hready Hfailed. apply String.eqb_neq in Hpid.
  unfold settle. rewrite Hpid, Hready, Hfailed.
  unfold callSetConversationState, setSubConversationTaskId, modify,
    mbind, M_bind, withStore, withLocalStorage, logCall.
  cbn. by rewrite <- !app_assoc.
Qed.

Lemma settle_idle d parentConversationId w :
  readyWithConversation d = false → failed d = false →
  settle d parentConversationId w = ((), w).
Proof.
  intros Hready Hfailed. unfold settle. rewrite Hready, Hfailed.
  destruct parentConversationId as [pid|]; [|done].
  by destruct (String.eqb pid "").
Qed.

(** *** Rendering *)

(** The world after a render: untouched if the effect's dependencies are
    those of its last run, and otherwise what the effect body leaves. *)
Lemma render_exec taskId parentConversationId w :
  exec (useSubConversationTaskPolling taskId parentConversationId) w
  = if decide (effectDeps w
               = Some (data (taskQuery w), parentConversationId))
    then w
    else exec (settle (data (taskQuery w)) parentConversationId)
              (withEffectDeps (data (taskQuery w), parentConversationId) w).
Proof.
  unfold exec, useSubConversationTaskPolling, useQuery, useEffect, gets,
    mbind, M_bind, mret, M_ret.
  cbn. case_decide; [done|].
  by destruct (settle _ _ _).
Qed.

Lemma render_eval taskId parentConversationId w :
  eval (useSubConversationTaskPolling taskId parentConversationId) w
  = {| task := data (taskQuery w);
       taskStatus := statusOf (data (taskQuery w));
       taskDetail := detailOf (data (taskQuery w));
       taskError := error (taskQuery w);
       isLoadingTask := isLoading (taskQuery w);
       subConversationId := appConversationIdOf (data (taskQuery w)) |}.
Proof.
  unfold eval, useSubConversationTaskPolling, useQuery, useEffect, gets,
    mbind, M_bind, mret, M_ret.
  cbn. case_decide; [done|].
  by destruct (settle _ _ _).
Qed.

End Polling.

Section Polls.
Implicit Types (w : World) (t : V1AppConversationStartTask) (d : QueryData).
Implicit Types (tid pid : string) (taskId parentConversationId : option string).

(** The effect body touches neither the query nor the effect's bookkeeping,
    and never calls the task service. *)
Lemma settle_frame d parentConversationId w :
  taskQuery (exec (settle d parentConversationId) w) = taskQuery w
  ∧ effectDeps (exec (settle d parentConversationId) w) = effectDeps w
  ∧ fetchCount (calls (exec (settle d parentConversationId) w))
    = fetchCount (calls w).
Proof.
  destruct parentConversationId as [pid|]; [|done].
  destruct (decide (pid = "")) as [->|Hpid]; [done|].
  destruct (readyWithConversation d) eqn:Hready.
  { unfold exec. rewrite settle_ready by done. cbn.
    unfold fetchCount. by rewrite filter_app, length_app, Nat.add_0_r. }
  destruct (failed d) eqn:Hfailed.
  { unfold exec. rewrite settle_failed by done. cbn.
    unfold fetchCount. by rewrite filter_app, length_app, Nat.add_0_r. }
  unfold exec. by rewrite settle_idle.
Qed.

Lemma render_taskQuery taskId parentConversationId w :
  taskQuery (exec (useSubConversationTaskPolling taskId parentConversationId) w)
  = taskQuery w.
Proof.
  rewrite render_exec. case_decide; [done|].
  by rewrite (proj1 (settle_frame _ _ _)).
Qed.

Lemma fetch_run tid reply w :
  tid ≠ "" → fetch (Some tid) reply w = ((), afterFetch tid reply w).
Proof.
  intros Htid. apply String.eqb_neq in Htid.
  unfold fetch, queryFn. by rewrite Htid.
Qed.

(** One poll of an enabled query: fetch, render, read the interval. *)
Lemma poll_enabled tid pid reply w :
  enabled (Some tid) (Some pid) = true →
  poll (Some tid) (Some pid) reply w
  = ((eval (useSubConversationTaskPolling (Some tid) (Some pid))
           (afterFetch tid reply w),
      refetchInterval (receive (promiseOf reply) (taskQuery w))),
     exec (useSubConversationTaskPolling (Some tid) (Some pid))
          (afterFetch tid reply w)).
Proof.
  intros He. unfold poll. rewrite He.
  apply enabled_spec in He as [Htid Hpid].
  unfold mbind at 1, M_bind at 1. rewrite fetch_run by done.
  unfold mbind, M_bind, gets, mret, M_ret.
  pose proof (render_taskQuery (Some tid) (Some pid) (afterFetch tid reply w))
    as Hq.
  unfold exec, eval in *.
  destruct (useSubConversationTaskPolling _ _ _) as [result w']. cbn in *.
  by rewrite Hq.
Qed.

Lemma poll_disabled taskId parentConversationId reply w :
  enabled taskId parentConversationId = false →
  poll taskId parentConversationId reply w
  = ((eval (useSubConversationTaskPolling taskId parentConversationId) w,
      None),
     exec (useSubConversationTaskPolling taskId parentConversationId) w).
Proof.
  intros He. unfold poll. rewrite He.
  unfold mbind, M_bind, mret, M_ret, exec, eval.
  by destruct (useSubConversationTaskPolling _ _ _).
Qed.

Lemma invalidationCount_app (before after : list Call) :
  invalidationCount (before ++ after)
  = invalidationCount before + invalidationCount after.
Proof. unfold invalidationCount. by rewrite filter_app, length_app. Qed.

Lemma readyWithConversation_task t :
  readyWithConversation (DTask t)
  = String.eqb (status t) "READY" && truthy (app_conversation_id t).
Proof.
  unfold readyWithConversation. cbn. f_equal.
  destruct (String.eqb_spec (status t) "READY") as [->|Hne].
  - by apply bool_decide_eq_true.
  - apply bool_decide_eq_false. congruence.
Qed.

Lemma failed_task t : failed (DTask t) = String.eqb (status t) "ERROR".
Proof.
  unfold failed. cbn.
  destruct (String.eqb_spec (status t) "ERROR") as [->|Hne].
  - by apply bool_decide_eq_true.
  - apply bool_decide_eq_false. congruence.
Qed.

End Polls.

Section Settlement.
Implicit Types (w : World) (t : V1AppConversationStartTask).
Implicit Types (tid pid : string).

#[local] Arguments settle : simpl never.
#[local] Arguments setConversationState : simpl never.
#[local] Arguments getConversationState : simpl never.
#[local] Arguments invalidationCount : simpl never.
#[local] Arguments isTerminal : simpl never.

(** While the poller is still polling, a task with a terminal status is a
    new observation: the effect has last run on the query's current data,
    which is either absent or a task that is not terminal. *)
Lemma terminal_observation_is_new t pid w :
  effectDeps w = Some (data (taskQuery w), Some pid) →
  data (taskQuery w) = DUndefined ∨ refetchInterval (taskQuery w) ≠ None →
  isTerminal (status t) = true →
  effectDeps w ≠ Some (DTask t, Some pid).
Proof.
  intros Hdeps Hpolling Hterminal Heq.
  rewrite Hdeps in Heq. injection Heq as Hdata.
  destruct Hpolling as [Hundef|Harmed]; [congruence|].
  apply Harmed. unfold refetchInterval. by rewrite Hdata, Hterminal.
Qed.

(** C1 (amended).  When a poll observes, for the first time, a task with
    status [READY] and a result reference that is neither [null] nor the
    empty string, the poller calls the service once, invalidates exactly the
    key [["user","conversation", parentConversationId]] once, then clears
    [subConversationTaskId] in the persisted record and in the in-memory
    store, and arms no further poll. *)
Theorem ready_with_reference_settles tid pid t (sub : string) w :
  enabled (Some tid) (Some pid) = true →
  status t = "READY" →
  app_conversation_id t = Some sub →
  sub ≠ "" →
  effectDeps w ≠ Some (DTask t, Some pid) →
  let observe := poll (Some tid) (Some pid) (Resolves t) in
  calls (exec observe w)
  = calls w ++ [GetStartTask tid;
                InvalidateQueries ["user"; "conversation"; pid];
                SetConversationState pid (onlySubConversationTaskId None);
                SetSubConversationTaskId None]
  ∧ invalidationCount (calls (exec observe w))
    = S (invalidationCount (calls w))
  ∧ localStorage (exec observe w)
    = setConversationState (localStorage w) pid
        (onlySubConversationTaskId None)
  ∧ subConversationTaskId
      (getConversationState (localStorage (exec observe w)) pid) = None
  ∧ storeSubConversationTaskId (exec observe w) = None
  ∧ (eval observe w).2 = None.
Proof.
  intros He Hstatus Href Hsub Hnew observe.
  assert (Hready : readyWithConversation (DTask t) = true).
  { rewrite readyWithConversation_task, Hstatus, Href. cbn.
    apply String.eqb_neq in Hsub. by rewrite Hsub. }
  pose proof He as [Htid Hpid]%enabled_spec.
  unfold exec, eval, observe. rewrite poll_enabled by done.
  cbn [fst snd]. rewrite render_exec. cbn.
  rewrite decide_False by done.
  unfold exec. rewrite settle_ready by done. cbn.
  rewrite <- app_assoc. cbn.
  repeat split.
  - by rewrite invalidationCount_app, Nat.add_1_r.
  - apply getConversationState_cleared.
  - unfold refetchInterval. cbn. by rewrite Hstatus.
Qed.

(** C2.  When a poll observes, for the first time, a task with status
    [ERROR], the poller clears [subConversationTaskId] in the persisted
    record and in the in-memory store, invalidates nothing, and arms no
    further poll. *)
Theorem error_settles_without_invalidation tid pid t w :
  enabled (Some tid) (Some pid) = true →
  status t = "ERROR" →
  effectDeps w ≠ Some (DTask t, Some pid) →
  let observe := poll (Some tid) (Some pid) (Resolves t) in
  calls (exec observe w)
  = calls w ++ [GetStartTask tid;
                SetConversationState pid (onlySubConversationTaskId None);
                SetSubConversationTaskId None]
  ∧ invalidationCount (calls (exec observe w)) = invalidationCount (calls w)
  ∧ localStorage (exec observe w)
    = setConversationState (localStorage w) pid
        (onlySubConversationTaskId None)
  ∧ subConversationTaskId
      (getConversationState (localStorage (exec observe w)) pid) = None
  ∧ storeSubConversationTaskId (exec observe w) = None
  ∧ (eval observe w).2 = None.
Proof.
  intros He Hstatus Hnew observe.
  assert (Hready : readyWithConversation (DTask t) = false).
  { by rewrite readyWithConversation_task, Hstatus. }
  assert (Hfailed : failed (DTask t) = true).
  { by rewrite failed_task, Hstatus. }
  pose proof He as [Htid Hpid]%enabled_spec.
  unfold exec, eval, observe. rewrite poll_enabled by done.
  cbn [fst snd]. rewrite render_exec. cbn.
  rewrite decide_False by done.
  unfold exec. rewrite settle_failed by done. cbn.
  rewrite <- app_assoc. cbn.
  repeat split.
  - by rewrite invalidationCount_app, Nat.add_0_r.
  - apply getConversationState_cleared.
  - unfold refetchInterval. cbn. by rewrite Hstatus.
Qed.

(** What a poll leaves when the task it observes calls for no settlement:
    the fetch is the only call, and both stores are as they were. *)
Lemma poll_without_settlement tid pid t w :
  enabled (Some tid) (Some pid) = true →
  readyWithConversation (DTask t) = false →
  failed (DTask t) = false →
  let observe := poll (Some tid) (Some pid) (Resolves t) in
  calls (exec observe w) = calls w ++ [GetStartTask tid]
  ∧ localStorage (exec observe w) = localStorage w
  ∧ storeSubConversationTaskId (exec observe w) = storeSubConversationTaskId w.
Proof.
  intros He Hready Hfailed observe.
  unfold exec, observe. rewrite poll_enabled by done.
  cbn [snd]. rewrite render_exec. cbn.
  case_decide; [done|].
  unfold exec. by rewrite settle_idle.
Qed.

(** C4.  When a poll observes a task whose status is not terminal (neither
    [READY] nor [ERROR]; in particular [WORKING] and
    [WAITING_FOR_SANDBOX]), nothing is written to the persisted record or
    to the in-memory store, nothing is invalidated, and the next poll is
    armed 3000 ms later. *)
Theorem non_terminal_keeps_polling tid pid t w :
  enabled (Some tid) (Some pid) = true →
  isTerminal (status t) = false →
  let observe := poll (Some tid) (Some pid) (Resolves t) in
  calls (exec observe w) = calls w ++ [GetStartTask tid]
  ∧ invalidationCount (calls (exec observe w)) = invalidationCount (calls w)
  ∧ localStorage (exec observe w) = localStorage w
  ∧ storeSubConversationTaskId (exec observe w) = storeSubConversationTaskId w
  ∧ (eval observe w).2 = Some 3000%Z.
Proof.
  intros He Hstatus observe.
  pose proof Hstatus as [Hnr Hne]%isTerminal_false.
  apply String.eqb_neq in Hnr, Hne.
  destruct (poll_without_settlement tid pid t w) as (Hcalls & Hls & Hstore);
    [done| by rewrite readyWithConversation_task, Hnr
         | by rewrite failed_task |].
  fold observe in Hcalls, Hls, Hstore.
  repeat split; try done.
  - by rewrite Hcalls, invalidationCount_app, Nat.add_0_r.
  - unfold eval, observe. rewrite poll_enabled by done.
    unfold refetchInterval. cbn. by rewrite Hstatus.
Qed.

(** C9.  When a poll observes a task with status [READY] whose result
    reference is [null], no further poll is armed, yet nothing is settled:
    nothing is invalidated and both stores are as they were, so a tracked
    task id stays in place. *)
Theorem ready_without_reference_stops_unsettled tid pid t w :
  enabled (Some tid) (Some pid) = true →
  status t = "READY" →
  app_conversation_id t = None →
  let observe := poll (Some tid) (Some pid) (Resolves t) in
  (eval observe w).2 = None
  ∧ calls (exec observe w) = calls w ++ [GetStartTask tid]
  ∧ invalidationCount (calls (exec observe w)) = invalidationCount (calls w)
  ∧ localStorage (exec observe w) = localStorage w
  ∧ storeSubConversationTaskId (exec observe w) = storeSubConversationTaskId w
  ∧ (is_Some (storeSubConversationTaskId w) →
     is_Some (storeSubConversationTaskId (exec observe w)))
  ∧ (is_Some (subConversationTaskId
                (getConversationState (localStorage w) pid)) →
     is_Some (subConversationTaskId
                (getConversationState (localStorage (exec observe w)) pid))).
Proof.
  intros He Hstatus Href observe.
  destruct (poll_without_settlement tid pid t w) as (Hcalls & Hls & Hstore);
    [done| by rewrite readyWithConversation_task, Hstatus, Href
         | by rewrite failed_task, Hstatus |].
  fold observe in Hcalls, Hls, Hstore.
  rewrite Hcalls, Hls, Hstore.
  repeat split; try done.
  - unfold eval, observe. rewrite poll_enabled by done.
    unfold refetchInterval. cbn. by rewrite Hstatus.
  - by rewrite invalidationCount_app, Nat.add_0_r.
Qed.

End Settlement.

Section Failure.
Implicit Types (w : World) (t : V1AppConversationStartTask).
Implicit Types (tid pid : string) (taskId parentConversationId : option string).

#[local] Arguments settle : simpl never.
#[local] Arguments invalidationCount : simpl never.
#[local] Arguments isTerminal : simpl never.

(** Every render leaves the effect run on the data it rendered. *)
Lemma render_commits taskId parentConversationId w :
  effectDeps (exec (useSubConversationTaskPolling taskId parentConversationId) w)
  = Some (data (taskQuery w), parentConversationId).
Proof.
  rewrite render_exec. case_decide; [done|].
  by rewrite (proj1 (proj2 (settle_frame _ _ _))).
Qed.

Lemma poll_commits tid pid reply w :
  enabled (Some tid) (Some pid) = true →
  effectDeps (exec (poll (Some tid) (Some pid) reply) w)
  = Some (data (taskQuery (exec (poll (Some tid) (Some pid) reply) w)),
          Some pid).
Proof.
  intros He. unfold exec. rewrite poll_enabled by done. cbn [snd].
  by rewrite render_commits, render_taskQuery.
Qed.

(** What a rejected fetch leaves: the persisted record and the in-memory
    store are unchanged, nothing is invalidated, the data of the last
    successful fetch stays in place and the rejection is returned in
    [taskError].  [refetchInterval] is evaluated on the data that stayed in
    place: the timer is armed for 3000 ms later if it is a task that is not
    terminal, and is not armed if the query holds no task. *)
Theorem rejected_fetch_keeps_state tid pid (err : string) w :
  enabled (Some tid) (Some pid) = true →
  effectDeps w = Some (data (taskQuery w), Some pid) →
  let observe := poll (Some tid) (Some pid) (Rejects err) in
  calls (exec observe w) = calls w ++ [GetStartTask tid]
  ∧ localStorage (exec observe w) = localStorage w
  ∧ storeSubConversationTaskId (exec observe w) = storeSubConversationTaskId w
  ∧ data (taskQuery (exec observe w)) = data (taskQuery w)
  ∧ taskError (eval observe w).1 = Some err
  ∧ (eval observe w).2
    = match data (taskQuery w) with
      | DTask previous =>
          if isTerminal (status previous) then None else Some 3000%Z
      | DUndefined | DNull => None
      end.
Proof.
  intros He Hcommitted observe.
  unfold exec, eval, observe. rewrite poll_enabled by done.
  cbn [fst snd]. rewrite render_exec, render_eval. cbn.
  by rewrite decide_True.
Qed.

End Failure.

Section Disabled.
Implicit Types (w : World) (d : QueryData).
Implicit Types (taskId parentConversationId : option string).

#[local] Arguments settle : simpl never.

Lemma enabled_no_parent taskId : enabled taskId None = false.
Proof. unfold enabled. by destruct (truthy taskId). Qed.

Lemma enabled_no_task parentConversationId :
  enabled None parentConversationId = false.
Proof. reflexivity. Qed.

(** Mounting with a disabled query is a single render: nothing is fetched
    and no timer is armed, whatever the service would answer. *)
Lemma mount_disabled taskId parentConversationId replies w :
  enabled taskId parentConversationId = false →
  mount taskId parentConversationId replies w
  = (false,
     exec (useSubConversationTaskPolling taskId parentConversationId) w).
Proof.
  intros He. unfold mount. rewrite He.
  unfold mbind, M_bind, mret, M_ret, exec.
  by destruct (useSubConversationTaskPolling _ _ _).
Qed.

(** A render that settles nothing leaves the stores and the calls alone. *)
Lemma render_inert taskId parentConversationId w :
  settle (data (taskQuery w)) parentConversationId
         (withEffectDeps (data (taskQuery w), parentConversationId) w)
  = ((), withEffectDeps (data (taskQuery w), parentConversationId) w) →
  let w' := exec (useSubConversationTaskPolling taskId parentConversationId) w
  in calls w' = calls w
     ∧ localStorage w' = localStorage w
     ∧ storeSubConversationTaskId w' = storeSubConversationTaskId w.
Proof.
  intros Hsettle. cbv zeta. rewrite render_exec.
  case_decide; [done|].
  unfold exec. by rewrite Hsettle.
Qed.

Lemma settle_without_task d parentConversationId w :
  statusOf d = None → settle d parentConversationId w = ((), w).
Proof.
  intros Hnone. apply settle_idle.
  - unfold readyWithConversation. rewrite Hnone. done.
  - unfold failed. by rewrite Hnone.
Qed.

Lemma render_fetchCount taskId parentConversationId w :
  fetchCount
    (calls (exec (useSubConversationTaskPolling taskId parentConversationId) w))
  = fetchCount (calls w).
Proof.
  rewrite render_exec. case_decide; [done|].
  by rewrite (proj2 (proj2 (settle_frame _ _ _))).
Qed.

(** C5.  With [parentConversationId] null the hook is inert whatever
    [taskId] is and whatever the query already holds: mounting it, or
    forcing a poll, calls neither the service nor the cache, writes to
    neither store, and arms no timer.  With [taskId] null the service is
    never called and no timer is armed; and as the query of a null task id
    holds no task, nothing else is called or written either.  In every case
    the model returns a value: there is no exceptional outcome. *)
Theorem null_identifier_is_inert :
  (∀ taskId replies w,
     let run := mount taskId None replies in
     calls (exec run w) = calls w
     ∧ localStorage (exec run w) = localStorage w
     ∧ storeSubConversationTaskId (exec run w) = storeSubConversationTaskId w
     ∧ eval run w = false)
  ∧ (∀ taskId reply w,
       let observe := poll taskId None reply in
       calls (exec observe w) = calls w
       ∧ localStorage (exec observe w) = localStorage w
       ∧ storeSubConversationTaskId (exec observe w)
         = storeSubConversationTaskId w
       ∧ (eval observe w).2 = None)
  ∧ (∀ parentConversationId replies reply w,
       let run := mount None parentConversationId replies in
       let observe := poll None parentConversationId reply in
       fetchCount (calls (exec run w)) = fetchCount (calls w)
       ∧ eval run w = false
       ∧ fetchCount (calls (exec observe w)) = fetchCount (calls w)
       ∧ (eval observe w).2 = None)
  ∧ (∀ parentConversationId replies w,
       statusOf (data (taskQuery w)) = None →
       let run := mount None parentConversationId replies in
       calls (exec run w) = calls w
       ∧ localStorage (exec run w) = localStorage w
       ∧ storeSubConversationTaskId (exec run w)
         = storeSubConversationTaskId w).
Proof.
  repeat apply conj.
  - intros taskId replies w run. unfold exec, eval, run.
    rewrite mount_disabled by apply enabled_no_parent. cbn [fst snd].
    destruct (render_inert taskId None w) as (? & ? & ?); [done|].
    done.
  - intros taskId reply w observe. unfold exec, eval, observe.
    rewrite poll_disabled by apply enabled_no_parent. cbn [fst snd].
    destruct (render_inert taskId None w) as (? & ? & ?); [done|].
    done.
  - intros parentConversationId replies reply w run observe.
    unfold exec, eval, run, observe.
    rewrite mount_disabled, poll_disabled by done. cbn [fst snd].
    repeat split; apply render_fetchCount.
  - intros parentConversationId replies w Hnone run. unfold exec, run.
    rewrite mount_disabled by done. cbn [snd].
    apply render_inert. by apply settle_without_task.
Qed.

End Disabled.

(** ** A whole polling session *)

Section Session.
Implicit Types (w : World) (t p : V1AppConversationStartTask).
Implicit Types (tid pid : string) (pre : list V1AppConversationStartTask).

#[local] Arguments settle : simpl never.
#[local] Arguments isTerminal : simpl never.

Lemma settle_calls d pid w :
  pid ≠ "" →
  calls (exec (settle d (Some pid)) w) = calls w ++ settlementCalls pid d.
Proof.
  intros Hpid. unfold settlementCalls, exec.
  destruct (readyWithConversation d) eqn:Hready.
  { by rewrite settle_ready. }
  destruct (failed d) eqn:Hfailed.
  { by rewrite settle_failed. }
  rewrite settle_idle by done. cbn. by rewrite app_nil_r.
Qed.

Lemma poll_non_terminal_calls tid pid p w :
  enabled (Some tid) (Some pid) = true →
  isTerminal (status p) = false →
  calls (exec (poll (Some tid) (Some pid) (Resolves p)) w)
  = calls w ++ [GetStartTask tid].
Proof.
  intros He [Hnr Hne]%isTerminal_false.
  apply String.eqb_neq in Hnr, Hne.
  apply poll_without_settlement; [done| |].
  - by rewrite readyWithConversation_task, Hnr.
  - by rewrite failed_task.
Qed.

(** A poll whose task is not terminal keeps the loop going. *)
Lemma pollLoop_step_non_terminal tid pid p later w :
  enabled (Some tid) (Some pid) = true →
  isTerminal (status p) = false →
  pollLoop (Some tid) (Some pid) (Resolves p :: later) w
  = pollLoop (Some tid) (Some pid) later
      (exec (poll (Some tid) (Some pid) (Resolves p)) w).
Proof.
  intros He Hp. cbn [pollLoop]. unfold mbind, M_bind, exec.
  rewrite poll_enabled by done. cbn [snd].
  unfold refetchInterval. cbn. by rewrite Hp.
Qed.

(** A poll whose task is terminal ends the loop: what the service would
    answer later is never asked for. *)
Lemma pollLoop_step_terminal tid pid t later w :
  enabled (Some tid) (Some pid) = true →
  isTerminal (status t) = true →
  pollLoop (Some tid) (Some pid) (Resolves t :: later) w
  = (false, exec (poll (Some tid) (Some pid) (Resolves t)) w).
Proof.
  intros He Ht. cbn [pollLoop]. unfold mbind, M_bind, exec.
  rewrite poll_enabled by done. cbn [snd].
  unfold refetchInterval. cbn. by rewrite Ht.
Qed.

(** Polling through tasks that are not terminal, then one that is: one
    fetch per task, then the settlement of the last, and no timer. *)
Lemma pollLoop_until_terminal tid pid pre t later w :
  enabled (Some tid) (Some pid) = true →
  Forall (λ p, isTerminal (status p) = false) pre →
  isTerminal (status t) = true →
  effectDeps w ≠ Some (DTask t, Some pid) →
  let run :=
    pollLoop (Some tid) (Some pid) (map Resolves pre ++ Resolves t :: later) in
  eval run w = false
  ∧ calls (exec run w)
    = calls w ++ replicate (S (length pre)) (GetStartTask tid)
              ++ settlementCalls pid (DTask t).
Proof.
  intros He Hpre Ht. revert w.
  induction Hpre as [|p pre Hp Hpre IH]; intros w Hnew run.
  - unfold eval, exec, run. cbn [map app].
    rewrite pollLoop_step_terminal by done. cbn [fst snd].
    split; [done|].
    pose proof He as [Htid Hpid]%enabled_spec.
    unfold exec. rewrite poll_enabled by done. cbn [snd].
    rewrite render_exec. cbn. rewrite decide_False by done.
    rewrite settle_calls by done. cbn. by rewrite <- app_assoc.
  - unfold eval, exec, run. cbn [map app].
    rewrite pollLoop_step_non_terminal by done.
    set (w1 := exec (poll (Some tid) (Some pid) (Resolves p)) w).
    destruct (IH w1) as [Heval Hcalls].
    { unfold w1. rewrite poll_commits by done.
      unfold exec. rewrite poll_enabled by done. cbn [snd].
      rewrite render_taskQuery. cbn.
      intros Heq. injection Heq as ->. congruence. }
    split; [exact Heval|].
    unfold exec in Hcalls. rewrite Hcalls.
    pose proof (poll_non_terminal_calls tid pid p w He Hp) as Hw1.
    fold w1 in Hw1. rewrite Hw1. cbn. by rewrite <- app_assoc.
Qed.


(** Polling by the timer from a freshly loaded page: when the service
    answers with tasks that are not terminal and then with a terminal one,
    there is one fetch per task observed, the terminal one is settled
    once, and the timer is left off, so the timer asks for none of the later
    answers. *)
Lemma mount_until_terminal tid pid pre t later ls store :
  enabled (Some tid) (Some pid) = true →
  Forall (λ p, isTerminal (status p) = false) pre →
  isTerminal (status t) = true →
  let run :=
    mount (Some tid) (Some pid) (map Resolves pre ++ Resolves t :: later) in
  eval run (freshWorld ls store) = false
  ∧ calls (exec run (freshWorld ls store))
    = replicate (S (length pre)) (GetStartTask tid)
      ++ settlementCalls pid (DTask t).
Proof.
  intros He Hpre Ht run.
  set (w1 := exec (useSubConversationTaskPolling (Some tid) (Some pid))
                  (startFetching (freshWorld ls store))).
  assert (Hrun : run (freshWorld ls store)
                 = pollLoop (Some tid) (Some pid)
                     (map Resolves pre ++ Resolves t :: later) w1).
  { unfold run, mount. rewrite He.
    unfold mbind, M_bind, modify, w1, exec.
    by destruct (useSubConversationTaskPolling _ _ _). }
  assert (Hw1 : w1 = withEffectDeps (DUndefined, Some pid)
                       (startFetching (freshWorld ls store))).
  { unfold w1. rewrite render_exec. cbn.
    rewrite decide_False by done.
    unfold exec. by rewrite settle_idle. }
  destruct (pollLoop_until_terminal tid pid pre t later w1)
    as [Heval Hcalls]; try done.
  { by rewrite Hw1. }
  unfold eval, exec in *. rewrite Hrun. split; [done|].
  rewrite Hcalls. by rewrite Hw1.
Qed.

End Session.

(** ** The scenarios of the test suites *)

Section Scenarios.
Import Scenario.

(** The storage tests of utils/conversation-local-storage, replayed on the
    model. *)
Example stored_task_id_is_read_back :
  subConversationTaskId
    (getConversationState
       {[ conversationStateKey "conv-123" :=
            mkPartial (Some "editor") (Some true) (Some [])
                      (Some (Some "task-uuid-123")) ]}
       "conv-123")
  = Some "task-uuid-123".
Proof. reflexivity. Qed.

Example partial_record_is_completed :
  getConversationState
    {[ conversationStateKey "conv-123" :=
         onlySubConversationTaskId (Some "task-123") ]}
    "conv-123"
  = mkConversationState "editor" true [] (Some "task-123").
Proof. reflexivity. Qed.

Example task_id_is_persisted :
  setConversationState ∅ "conv-123"
    (onlySubConversationTaskId (Some "task-uuid-456"))
  !! "conversation-state-conv-123"
  = Some (onlySubConversationTaskId (Some "task-uuid-456")).
Proof. reflexivity. Qed.

Example task_id_is_cleared :
  subConversationTaskId_opt
    (storedRecord
       (setConversationState
          {[ conversationStateKey "conv-123" :=
               onlySubConversationTaskId (Some "task-123") ]}
          "conv-123" (onlySubConversationTaskId None))
       "conv-123")
  = Some None.
Proof. reflexivity. Qed.

(** The hook's tests: [task-123] of parent [parent-conv-123] resolves
    [READY] with [sub-conv-456]. *)
Example ready_scenario :
  let run :=
    mount taskId parentConversationId
      [Resolves (makeTask "READY" (Some "sub-conv-456"))] in
  calls (exec run tracking)
  = [GetStartTask "task-123";
     InvalidateQueries ["user"; "conversation"; "parent-conv-123"];
     SetConversationState "parent-conv-123" (onlySubConversationTaskId None);
     SetSubConversationTaskId None]
  ∧ getConversationState (localStorage (exec run tracking)) "parent-conv-123"
    = mkConversationState "changes" false ["tab-1"] None
  ∧ storeSubConversationTaskId (exec run tracking) = None.
Proof. vm_compute. done. Qed.

(** The same task resolves [ERROR]. *)
Example error_scenario :
  let run :=
    mount taskId parentConversationId [Resolves (makeTask "ERROR" None)] in
  calls (exec run tracking)
  = [GetStartTask "task-123";
     SetConversationState "parent-conv-123" (onlySubConversationTaskId None);
     SetSubConversationTaskId None]
  ∧ getConversationState (localStorage (exec run tracking)) "parent-conv-123"
    = mkConversationState "changes" false ["tab-1"] None
  ∧ storeSubConversationTaskId (exec run tracking) = None.
Proof. vm_compute. done. Qed.

(** The task is still [WORKING], then [WAITING_FOR_SANDBOX]. *)
Example in_progress_scenario :
  let run :=
    mount taskId parentConversationId
      [Resolves (makeTask "WORKING" None);
       Resolves (makeTask "WAITING_FOR_SANDBOX" None)] in
  calls (exec run tracking) = [GetStartTask "task-123"; GetStartTask "task-123"]
  ∧ localStorage (exec run tracking) = localStorage tracking
  ∧ storeSubConversationTaskId (exec run tracking) = Some "task-123"
  ∧ eval run tracking = true.
Proof. vm_compute. done. Qed.

(** No parent conversation. *)
Example no_parent_scenario :
  let run :=
    mount taskId None [Resolves (makeTask "READY" (Some "sub-conv-456"))] in
  calls (exec run tracking) = []
  ∧ localStorage (exec run tracking) = localStorage tracking
  ∧ storeSubConversationTaskId (exec run tracking) = Some "task-123".
Proof. vm_compute. done. Qed.

Lemma ready_with_reference_settles_witness :
  let observe :=
    poll taskId parentConversationId
         (Resolves (makeTask "READY" (Some "sub-conv-456"))) in
  invalidationCount (calls (exec observe mounted)) = 1
  ∧ subConversationTaskId
      (getConversationState (localStorage (exec observe mounted))
                            "parent-conv-123") = None
  ∧ storeSubConversationTaskId (exec observe mounted) = None
  ∧ (eval observe mounted).2 = None.
Proof.
  destruct (ready_with_reference_settles
              "task-123" "parent-conv-123"
              (makeTask "READY" (Some "sub-conv-456")) "sub-conv-456" mounted)
    as (_ & Hcount & _ & Hpersisted & Hstore & Hnext);
    [reflexivity | reflexivity | reflexivity | discriminate
    | vm_compute; discriminate |].
  repeat split; assumption.
Defined.

(** C1, as stated, fails: a [READY] task whose result reference is the
    empty string has a reference that is not [null], yet the poller
    invalidates nothing and clears neither store, while polling stops. *)
Lemma ready_with_empty_reference_is_not_settled :
  let t := makeTask "READY" (Some "") in
  let observe := poll taskId parentConversationId (Resolves t) in
  enabled taskId parentConversationId = true
  ∧ parentConversationId ≠ None
  ∧ status t = "READY"
  ∧ app_conversation_id t ≠ None
  ∧ effectDeps mounted ≠ Some (DTask t, parentConversationId)
  ∧ calls (exec observe mounted) = [GetStartTask "task-123"]
  ∧ invalidationCount (calls (exec observe mounted)) = 0
  ∧ subConversationTaskId
      (getConversationState (localStorage (exec observe mounted))
                            "parent-conv-123") = Some "task-123"
  ∧ storeSubConversationTaskId (exec observe mounted) = Some "task-123"
  ∧ (eval observe mounted).2 = None.
Proof. vm_compute. repeat split; done. Qed.

Lemma error_settles_without_invalidation_witness :
  let observe :=
    poll taskId parentConversationId (Resolves (makeTask "ERROR" None)) in
  invalidationCount (calls (exec observe mounted)) = 0
  ∧ subConversationTaskId
      (getConversationState (localStorage (exec observe mounted))
                            "parent-conv-123") = None
  ∧ storeSubConversationTaskId (exec observe mounted) = None
  ∧ (eval observe mounted).2 = None.
Proof.
  destruct (error_settles_without_invalidation
              "task-123" "parent-conv-123" (makeTask "ERROR" None) mounted)
    as (_ & Hcount & _ & Hpersisted & Hstore & Hnext);
    [reflexivity | reflexivity | vm_compute; discriminate |].
  repeat split; assumption.
Defined.

Lemma non_terminal_keeps_polling_witness :
  let observe :=
    poll taskId parentConversationId (Resolves (makeTask "WORKING" None)) in
  calls (exec observe mounted) = [GetStartTask "task-123"]
  ∧ localStorage (exec observe mounted) = localStorage mounted
  ∧ storeSubConversationTaskId (exec observe mounted) = Some "task-123"
  ∧ (eval observe mounted).2 = Some 3000%Z.
Proof.
  destruct (non_terminal_keeps_polling
              "task-123" "parent-conv-123" (makeTask "WORKING" None) mounted)
    as (Hcalls & _ & Hls & Hstore & Hnext);
    [reflexivity | reflexivity |].
  repeat split; assumption.
Defined.

Lemma ready_without_reference_stops_unsettled_witness :
  let observe :=
    poll taskId parentConversationId (Resolves (makeTask "READY" None)) in
  (eval observe mounted).2 = None
  ∧ calls (exec observe mounted) = [GetStartTask "task-123"]
  ∧ storeSubConversationTaskId (exec observe mounted) = Some "task-123".
Proof.
  destruct (ready_without_reference_stops_unsettled
              "task-123" "parent-conv-123" (makeTask "READY" None) mounted)
    as (Hnext & Hcalls & _ & _ & Hstore & _);
    [reflexivity | reflexivity | reflexivity |].
  repeat split; assumption.
Defined.

(** The page after a first poll that found the task [WORKING]. *)
Lemma rejected_fetch_keeps_state_witness :
  let working :=
    exec (poll taskId parentConversationId
               (Resolves (makeTask "WORKING" None))) mounted in
  let observe := poll taskId parentConversationId (Rejects "Network Error") in
  localStorage (exec observe working) = localStorage working
  ∧ storeSubConversationTaskId (exec observe working) = Some "task-123"
  ∧ taskError (eval observe working).1 = Some "Network Error"
  ∧ (eval observe working).2 = Some 3000%Z.
Proof.
  destruct (rejected_fetch_keeps_state
              "task-123" "parent-conv-123" "Network Error"
              (exec (poll taskId parentConversationId
                          (Resolves (makeTask "WORKING" None))) mounted))
    as (_ & Hls & Hstore & _ & Herror & Hnext);
    [reflexivity | vm_compute; reflexivity |].
  repeat split; assumption.
Defined.

(** C3.  The hook's documentation has it poll every 3 seconds until the
    status is READY or ERROR, and once a task has been fetched a rejected
    fetch does leave the timer armed for 3000 ms later.  But when the very
    first fetch is rejected the query holds no task, [refetchInterval]
    answers [false], and no timer is armed although the task is neither
    READY nor ERROR: the error is returned in [taskError], the stores are
    unchanged, and what the service would answer to the timer's next poll is
    never asked for.  Only the window regaining focus or the network coming
    back starts another fetch. *)
Lemma first_fetch_rejected_stops_polling :
  let observe := poll taskId parentConversationId (Rejects "Network Error") in
  let run :=
    mount taskId parentConversationId
      [Rejects "Network Error";
       Resolves (makeTask "READY" (Some "sub-conv-456"))] in
  let sibling :=
    mount taskId parentConversationId
      [Resolves (makeTask "WORKING" None); Rejects "Network Error"] in
  enabled taskId parentConversationId = true
  ∧ effectDeps mounted = Some (data (taskQuery mounted), parentConversationId)
  ∧ taskError (eval observe mounted).1 = Some "Network Error"
  ∧ (eval observe mounted).2 = None
  ∧ (eval observe mounted).2 ≠ Some 3000%Z
  ∧ eval run tracking = false
  ∧ calls (exec run tracking) = [GetStartTask "task-123"]
  ∧ localStorage (exec run tracking) = localStorage tracking
  ∧ storeSubConversationTaskId (exec run tracking) = Some "task-123"
  ∧ eval sibling tracking = true
  ∧ calls (exec (lifetime taskId parentConversationId
                          [Rejects "Network Error"]
                          [(TimerFires, Resolves (makeTask "WORKING" None));
                           (WindowFocus, Resolves (makeTask "WORKING" None))])
                tracking)
    = [GetStartTask "task-123"; GetStartTask "task-123"].
Proof. vm_compute. repeat split; done. Qed.

Lemma null_identifier_is_inert_witness :
  let run :=
    mount None parentConversationId
      [Resolves (makeTask "READY" (Some "sub-conv-456"))] in
  calls (exec run tracking) = calls tracking
  ∧ localStorage (exec run tracking) = localStorage tracking
  ∧ storeSubConversationTaskId (exec run tracking)
    = storeSubConversationTaskId tracking.
Proof.
  destruct null_identifier_is_inert as (_ & _ & _ & Hinert).
  apply (Hinert parentConversationId
           [Resolves (makeTask "READY" (Some "sub-conv-456"))] tracking).
  reflexivity.
Defined.

End Scenarios.

(** ** More on the poller *)

Section Sessions.
Implicit Types (w : World) (t p : V1AppConversationStartTask).
Implicit Types (tid pid : string) (taskId parentConversationId : option string).
Implicit Types (replies : list Reply).

#[local] Arguments settle : simpl never.
#[local] Arguments isTerminal : simpl never.
#[local] Arguments invalidationCount : simpl never.
#[local] Arguments setConversationState : simpl never.
#[local] Arguments getConversationState : simpl never.

(** The loop, one answer at a time: it goes on exactly when the poll armed
    the timer. *)
Lemma pollLoop_cons taskId parentConversationId reply later w :
  pollLoop taskId parentConversationId (reply :: later) w
  = match (eval (poll taskId parentConversationId reply) w).2 with
    | Some _ =>
        pollLoop taskId parentConversationId later
                 (exec (poll taskId parentConversationId reply) w)
    | None => (false, exec (poll taskId parentConversationId reply) w)
    end.
Proof.
  cbn [pollLoop]. unfold mbind, M_bind, eval, exec.
  destruct (poll _ _ _ _) as [[result [delay|]] w']; done.
Qed.

Lemma mount_enabled tid pid replies w :
  enabled (Some tid) (Some pid) = true →
  mount (Some tid) (Some pid) replies w
  = pollLoop (Some tid) (Some pid) replies
      (exec (useSubConversationTaskPolling (Some tid) (Some pid))
            (startFetching w)).
Proof.
  intros He. unfold mount. rewrite He.
  unfold mbind, M_bind, modify, exec.
  by destruct (useSubConversationTaskPolling _ _ _).
Qed.

(** *** Rendering again *)

(** X4.  Rendering the hook again while neither the query's data nor the
    parent conversation has changed does nothing: the effect has already
    run on these dependencies, so no call is repeated and no store is
    written a second time. *)
Theorem render_again_is_silent taskId parentConversationId w :
  exec (useSubConversationTaskPolling taskId parentConversationId)
       (exec (useSubConversationTaskPolling taskId parentConversationId) w)
  = exec (useSubConversationTaskPolling taskId parentConversationId) w.
Proof.
  rewrite (render_exec _ _ (exec _ w)).
  by rewrite render_commits, render_taskQuery, decide_True.
Qed.

(** *** Identifiers that are the empty string *)

Lemma enabled_empty_parent taskId : enabled taskId (Some "") = false.
Proof. unfold enabled. by destruct (truthy taskId). Qed.

(** X5.  An identifier that is the empty string disables the hook just as
    [null] does.  With an empty [parentConversationId] nothing is called and
    nothing is written, whatever the query holds; with an empty [taskId] the
    service is never called and no timer is armed. *)
Theorem empty_identifier_is_inert :
  (∀ taskId replies w,
     let run := mount taskId (Some "") replies in
     calls (exec run w) = calls w
     ∧ localStorage (exec run w) = localStorage w
     ∧ storeSubConversationTaskId (exec run w) = storeSubConversationTaskId w
     ∧ eval run w = false)
  ∧ (∀ parentConversationId replies w,
       let run := mount (Some "") parentConversationId replies in
       fetchCount (calls (exec run w)) = fetchCount (calls w)
       ∧ eval run w = false).
Proof.
  split.
  - intros taskId replies w run. unfold exec, eval, run.
    rewrite mount_disabled by apply enabled_empty_parent. cbn [fst snd].
    destruct (render_inert taskId (Some "") w) as (? & ? & ?); done.
  - intros parentConversationId replies w run. unfold exec, eval, run.
    rewrite mount_disabled by done. cbn [fst snd].
    split; [apply render_fetchCount | done].
Qed.

End Sessions.

(** ** What a mounted hook can change *)

Section Frame.
Implicit Types (w : World) (replies : list Reply).

#[local] Arguments settle : simpl never.
#[local] Arguments setConversationState : simpl never.
#[local] Arguments getConversationState : simpl never.

(** A relation between the world before and after that holds across every
    step a mounted hook takes also holds across the whole session. *)
Section Steps.
Variables (taskId parentConversationId : option string).
Variable R : World → World → Prop.
Hypothesis R_refl : ∀ w, R w w.
Hypothesis R_trans : ∀ w1 w2 w3, R w1 w2 → R w2 w3 → R w1 w3.
Hypothesis R_render :
  ∀ w, R w (exec (useSubConversationTaskPolling taskId parentConversationId) w).
Hypothesis R_fetch :
  ∀ tid reply w,
    taskId = Some tid → tid ≠ "" → truthy parentConversationId = true →
    R w (afterFetch tid reply w).
Hypothesis R_start : ∀ w, R w (startFetching w).

Lemma poll_steps reply w :
  R w (exec (poll taskId parentConversationId reply) w).
Proof.
  destruct (enabled taskId parentConversationId) eqn:He.
  - destruct (enabled_inv _ _ He)
      as (tid & pid & Htask & Hparent & Htid & Hpid).
    assert (He' : enabled (Some tid) (Some pid) = true).
    { by rewrite <- Htask, <- Hparent. }
    unfold exec. rewrite Htask, Hparent, poll_enabled by done. cbn [snd].
    rewrite <- Htask, <- Hparent.
    eapply R_trans; [|apply R_render].
    apply R_fetch; [done..|].
    rewrite Hparent. unfold truthy.
    apply String.eqb_neq in Hpid. by rewrite Hpid.
  - unfold exec. rewrite poll_disabled by done. apply R_render.
Qed.

Lemma pollLoop_steps replies w :
  R w (exec (pollLoop taskId parentConversationId replies) w).
Proof.
  revert w. induction replies as [|reply later IH]; intros w; [apply R_refl|].
  unfold exec. rewrite pollLoop_cons.
  destruct ((eval (poll taskId parentConversationId reply) w).2).
  - eapply R_trans; [apply poll_steps|apply IH].
  - apply poll_steps.
Qed.

Lemma mount_steps replies w :
  R w (exec (mount taskId parentConversationId replies) w).
Proof.
  destruct (enabled taskId parentConversationId) eqn:He.
  - destruct (enabled_inv _ _ He)
      as (tid & pid & Htask & Hparent & Htid & Hpid).
    assert (He' : enabled (Some tid) (Some pid) = true).
    { by rewrite <- Htask, <- Hparent. }
    unfold exec. rewrite Htask, Hparent, mount_enabled by done.
    rewrite <- Htask, <- Hparent.
    eapply R_trans; [apply R_start|].
    eapply R_trans; [apply R_render|].
    apply pollLoop_steps.
  - unfold exec. rewrite mount_disabled by done. apply R_render.
Qed.

End Steps.

Lemma settlementCalls_scoped taskId pid d :
  pid ≠ "" → Forall (scopedCall taskId (Some pid)) (settlementCalls pid d).
Proof.
  intros Hpid. apply String.eqb_neq in Hpid as Hpid'.
  unfold settlementCalls.
  destruct (readyWithConversation d); [|destruct (failed d)];
    repeat constructor; cbn; rewrite ?Hpid'; eauto.
Qed.

(** X6.  In any state of the page and for any answers of the service, every
    call a mounted hook adds is one of four: a fetch of its own task id
    (never for an empty one), an invalidation of exactly the parent
    conversation's key, a write of [{ subConversationTaskId: null }] to the
    parent's record, or a reset of the store's field to [null].  It never
    writes a task id, never writes another conversation's record and never
    invalidates another key. *)
Theorem mount_calls_are_scoped taskId parentConversationId replies w :
  ∃ added,
    calls (exec (mount taskId parentConversationId replies) w)
    = calls w ++ added
    ∧ Forall (scopedCall taskId parentConversationId) added.
Proof.
  apply (mount_steps taskId parentConversationId
           (λ w w', ∃ added, calls w' = calls w ++ added
                    ∧ Forall (scopedCall taskId parentConversationId) added)).
  - intros w0. exists []. by rewrite app_nil_r.
  - intros w1 w2 w3 (a1 & H1 & F1) (a2 & H2 & F2).
    exists (a1 ++ a2). rewrite H2, H1, <- app_assoc.
    split; [done|]. by apply Forall_app.
  - intros w0. rewrite render_exec. case_decide.
    { exists []. by rewrite app_nil_r. }
    destruct parentConversationId as [pid|].
    2:{ exists []. by rewrite app_nil_r. }
    destruct (decide (pid = "")) as [->|Hpid].
    { exists []. by rewrite app_nil_r. }
    rewrite settle_calls by done.
    eexists. split; [done|]. by apply settlementCalls_scoped.
  - intros tid reply w0 -> Htid Hparent.
    exists [GetStartTask tid]. split; [done|].
    by repeat constructor.
  - intros w0. exists []. by rewrite app_nil_r.
Qed.

Lemma setConversationState_clear_twice (ls : LocalStorage) (pid : string) :
  setConversationState
    (setConversationState ls pid (onlySubConversationTaskId None))
    pid (onlySubConversationTaskId None)
  = setConversationState ls pid (onlySubConversationTaskId None).
Proof.
  unfold setConversationState at 1.
  rewrite storedRecord_set, mergePartial_clear_twice.
  unfold setConversationState. by rewrite insert_insert_eq.
Qed.

(** X7.  Whatever happens while the hook is mounted for a parent
    conversation, the persisted storage ends either untouched or with
    [subConversationTaskId] of that parent cleared, and the store's field
    either untouched or [null].  So no other conversation's record changes,
    and the parent's [selectedTab], [rightPanelShown] and [unpinnedTabs]
    read as before. *)
Theorem mount_only_clears_parent_task_id
    (taskId : option string) (pid : string) replies w :
  let w' := exec (mount taskId (Some pid) replies) w in
  (localStorage w' = localStorage w
   ∨ localStorage w'
     = setConversationState (localStorage w) pid
         (onlySubConversationTaskId None))
  ∧ (storeSubConversationTaskId w' = storeSubConversationTaskId w
     ∨ storeSubConversationTaskId w' = None)
  ∧ (∀ other, other ≠ pid →
       getConversationState (localStorage w') other
       = getConversationState (localStorage w) other)
  ∧ selectedTab (getConversationState (localStorage w') pid)
    = selectedTab (getConversationState (localStorage w) pid)
  ∧ rightPanelShown (getConversationState (localStorage w') pid)
    = rightPanelShown (getConversationState (localStorage w) pid)
  ∧ unpinnedTabs (getConversationState (localStorage w') pid)
    = unpinnedTabs (getConversationState (localStorage w) pid).
Proof.
  intros w'.
  assert (Hw' :
    (localStorage w' = localStorage w
     ∨ localStorage w'
       = setConversationState (localStorage w) pid
           (onlySubConversationTaskId None))
    ∧ (storeSubConversationTaskId w' = storeSubConversationTaskId w
       ∨ storeSubConversationTaskId w' = None)).
  { apply (mount_steps taskId (Some pid)
             (λ w w',
                (localStorage w' = localStorage w
                 ∨ localStorage w'
                   = setConversationState (localStorage w) pid
                       (onlySubConversationTaskId None))
                ∧ (storeSubConversationTaskId w' = storeSubConversationTaskId w
                   ∨ storeSubConversationTaskId w' = None))).
    - intros w0. split; by left.
    - intros w1 w2 w3 [Hls1 Hst1] [Hls2 Hst2]. split.
      + destruct Hls2 as [E2|E2], Hls1 as [E1|E1]; rewrite E2, E1; auto.
        right. apply setConversationState_clear_twice.
      + destruct Hst2 as [E2|E2], Hst1 as [E1|E1]; rewrite E2, ?E1; auto.
    - intros w0. rewrite render_exec. case_decide; [split; by left|].
      destruct (decide (pid = "")) as [->|Hpid]; [split; by left|].
      destruct (readyWithConversation (data (taskQuery w0))) eqn:Hready.
      { unfold exec. rewrite settle_ready by done. cbn. split; by right. }
      destruct (failed (data (taskQuery w0))) eqn:Hfailed.
      { unfold exec. rewrite settle_failed by done. cbn. split; by right. }
      unfold exec. rewrite settle_idle by done. split; by left.
    - intros tid reply w0 _ _ _. split; by left.
    - intros w0. split; by left. }
  destruct Hw' as [Hls Hstore]. split; [done|]. split; [done|].
  destruct Hls as [-> | ->].
  { repeat split; done. }
  split.
  { intros other Hother. by apply getConversationState_set_other. }
  rewrite getConversationState_set. repeat split; done.
Qed.

Lemma mount_only_clears_parent_task_id_witness :
  getConversationState
    (localStorage
       (exec (mount Scenario.taskId Scenario.parentConversationId
                    [Resolves (Scenario.makeTask "ERROR" None)])
             Scenario.tracking))
    "conv-123"
  = getConversationState (localStorage Scenario.tracking) "conv-123".
Proof.
  destruct (mount_only_clears_parent_task_id
              Scenario.taskId "parent-conv-123"
              [Resolves (Scenario.makeTask "ERROR" None)] Scenario.tracking)
    as (_ & _ & Hother & _).
  apply Hother. discriminate.
Defined.

End Frame.

(** ** Advanced settings *)

Section Advanced.
Import AdvancedSettings.
Implicit Types (defaults settings : PartialSettings).

(** X8.  The guard on the number of keys never hides a setting: a settings
    object that carries a non-empty [llm_base_url], or an agent name other
    than what the defaults read for [agent], is advanced; and the empty
    object never is. *)
Theorem set_base_url_or_agent_is_advanced defaults settings :
  (∃ url, llm_base_url settings = Text url ∧ url ≠ "")
  ∨ (∃ name, agent settings = Text name
             ∧ valueOf (agent defaults) ≠ VText name) →
  hasAdvancedSettingsSet defaults settings = true
  ∧ hasAdvancedSettingsSet defaults noSettings = false.
Proof.
  intros Hset. split; [|done].
  unfold hasAdvancedSettingsSet, keyCount.
  destruct Hset as [(url & -> & Hurl)|(name & -> & Hname)].
  - apply String.eqb_neq in Hurl. cbn. by rewrite Hurl.
  - apply andb_true_intro. split.
    + apply Nat.ltb_lt. cbn [isPresent].
      destruct (llm_base_url settings); cbn; lia.
    + cbn [valueOf]. rewrite bool_decide_eq_false_2 by congruence.
      apply orb_true_r.
Qed.

Lemma set_base_url_or_agent_is_advanced_witness :
  hasAdvancedSettingsSet
    (mkPartialSettings (Text "") (Text "CodeActAgent") 16)
    (mkPartialSettings Absent (Text "test") 0) = true.
Proof.
  apply (set_base_url_or_agent_is_advanced
           (mkPartialSettings (Text "") (Text "CodeActAgent") 16)
           (mkPartialSettings Absent (Text "test") 0)).
  right. exists "test". split; [reflexivity | discriminate].
Defined.

(** X9.  When the defaults name an agent, every settings object that has at
    least one key but carries no agent (the key is absent, or holds
    [undefined] or [null]) is advanced, whatever else it holds: its agent
    reads as something other than the default name. *)
Theorem settings_without_agent_are_advanced defaults settings
    (defaultAgent : string) :
  agent defaults = Text defaultAgent →
  (0 < keyCount settings)%nat →
  (∀ name, agent settings ≠ Text name) →
  hasAdvancedSettingsSet defaults settings = true.
Proof.
  intros Hdefault Hkeys Hagent.
  unfold hasAdvancedSettingsSet.
  apply Nat.ltb_lt in Hkeys. rewrite Hkeys, Hdefault. cbn.
  rewrite bool_decide_eq_false_2; [by rewrite orb_true_r|].
  destruct (agent settings) as [| | |name]; cbn; try discriminate.
  by destruct (Hagent name).
Qed.

Lemma settings_without_agent_are_advanced_witness :
  hasAdvancedSettingsSet
    (mkPartialSettings (Text "") (Text "CodeActAgent") 16)
    (mkPartialSettings Absent Absent 1) = true.
Proof.
  apply (settings_without_agent_are_advanced
           (mkPartialSettings (Text "") (Text "CodeActAgent") 16)
           (mkPartialSettings Absent Absent 1) "CodeActAgent").
  - reflexivity.
  - cbn. lia.
  - discriminate.
Defined.

(** X10.  For defaults whose own [llm_base_url] is falsy: the defaults are
    not advanced; the defaults with [llm_base_url] overridden are advanced
    exactly when the new URL is not empty; and the defaults with [agent]
    overridden are advanced exactly when the new name differs from what the
    defaults read for [agent]. *)
Theorem overriding_the_defaults defaults :
  truthyValue (valueOf (llm_base_url defaults)) = false →
  hasAdvancedSettingsSet defaults defaults = false
  ∧ (∀ url, hasAdvancedSettingsSet defaults (withLlmBaseUrl url defaults)
            = negb (String.eqb url ""))
  ∧ (∀ name, hasAdvancedSettingsSet defaults (withAgent name defaults)
             = negb (bool_decide (valueOf (agent defaults) = VText name))).
Proof.
  intros Hurl. unfold hasAdvancedSettingsSet. repeat split.
  - rewrite Hurl, bool_decide_eq_true_2 by done. apply andb_false_r.
  - intros url. cbn. rewrite bool_decide_eq_true_2 by done.
    by rewrite orb_false_r.
  - intros name. cbn [withAgent llm_base_url agent].
    rewrite Hurl. cbn [orb].
    replace (0 <? keyCount _)%nat with true.
    2:{ symmetry. apply Nat.ltb_lt. unfold keyCount. cbn.
        destruct (llm_base_url defaults); cbn; lia. }
    cbn. f_equal. apply bool_decide_ext. split; congruence.
Qed.

Lemma overriding_the_defaults_witness :
  hasAdvancedSettingsSet
    (mkPartialSettings (Text "") (Text "CodeActAgent") 16)
    (mkPartialSettings (Text "") (Text "CodeActAgent") 16) = false.
Proof.
  apply (overriding_the_defaults
           (mkPartialSettings (Text "") (Text "CodeActAgent") 16)).
  reflexivity.
Defined.

End Advanced.

(** ** The settings navigation *)

Section Navigation.
Import Config SettingsNav.
Context {Item : Type} (to : Item → string).
Variables SAAS_NAV_ITEMS OSS_NAV_ITEMS : list Item.

(** X11.  The items returned are always taken, in their order, from the list
    of the current mode (the SaaS list when [APP_MODE] is ["saas"], the OSS
    list otherwise, also while the configuration is loading).  When
    [HIDE_LLM_SETTINGS] is set, none of them routes to ["/settings"] and
    every other item of the list is kept; when it is not set, the list is
    returned whole. *)
Theorem nav_items_hide_only_llm_settings (config : option GetConfigResponse) :
  let items :=
    if isSaasMode config then SAAS_NAV_ITEMS else OSS_NAV_ITEMS in
  let shown := useSettingsNavItems to SAAS_NAV_ITEMS OSS_NAV_ITEMS config in
  shown `sublist_of` items
  ∧ (∀ item, item ∈ shown ↔
       item ∈ items
       ∧ (shouldHideLlmSettings config = true → to item ≠ "/settings"))
  ∧ (shouldHideLlmSettings config = false → shown = items)
  ∧ (config = None → shown = OSS_NAV_ITEMS).
Proof.
  intros items shown. unfold shown, useSettingsNavItems. fold items.
  destruct (shouldHideLlmSettings config) eqn:Hhide.
  - split; [apply sublist_filter|]. split; [|split].
    + intros item. rewrite list_elem_of_filter. split.
      * intros [Hto Hin]. split; [exact Hin|]. intros _. exact Hto.
      * intros [Hin Hto]. split; [by apply Hto|exact Hin].
    + discriminate.
    + intros ->. discriminate.
  - split; [done|]. split; [|split].
    + intros item. split; [intros Hin; split; [exact Hin|discriminate]|].
      by intros [Hin _].
    + done.
    + by intros ->.
Qed.

(** X12.  Against the mock server's configuration, the navigation shows the
    SaaS items without the one routing to ["/settings"] when
    [VITE_MOCK_SAAS] is ["true"], and all the OSS items for any other value
    or without one. *)
Theorem nav_items_under_mock_config (VITE_MOCK_SAAS : option string) :
  useSettingsNavItems to SAAS_NAV_ITEMS OSS_NAV_ITEMS
    (Some (MockSettings.getConfig VITE_MOCK_SAAS))
  = if bool_decide (VITE_MOCK_SAAS = Some "true")
    then filter (λ item, to item ≠ "/settings") SAAS_NAV_ITEMS
    else OSS_NAV_ITEMS.
Proof.
  unfold useSettingsNavItems, MockSettings.getConfig. cbn.
  by destruct (bool_decide (VITE_MOCK_SAAS = Some "true")).
Qed.

End Navigation.

Lemma nav_items_hide_only_llm_settings_witness :
  SettingsNav.useSettingsNavItems (λ item : string, item) ["/settings"; "/settings/app"]
                      ["/settings"; "/settings/mcp"] None
  = ["/settings"; "/settings/mcp"].
Proof.
  destruct (nav_items_hide_only_llm_settings
              (λ item : string, item) ["/settings"; "/settings/app"]
              ["/settings"; "/settings/mcp"] None)
    as (_ & _ & _ & Hloading).
  apply Hloading. reflexivity.
Defined.

(** ** The mock settings server *)

Section MockServer.
Import Js MockSettings.
Variable DEFAULT_SETTINGS : string → Json.
Implicit Types (requestBody rawTokens : Json).
Implicit Types (settings : option (gmap string Json)).

Lemma lookup_spread (target : gmap string Json) (source : Json) (key : string) :
  spread target source !! key
  = match ownProperties source !! key with
    | Some value => Some value
    | None => target !! key
    end.
Proof.
  unfold spread. rewrite lookup_union.
  by destruct (ownProperties source !! key), (target !! key).
Qed.

Lemma spread_twice (target : gmap string Json) (source : Json) :
  spread (spread target source) source = spread target source.
Proof.
  unfold spread. by rewrite (assoc_L (∪)), (idemp_L (∪)).
Qed.

(** X13.  A [POST /api/settings] with a truthy body answers 200, and the
    settings then served by [GET /api/settings] hold, for every own property
    of the body, the value the body gave it, and for every other key the
    value stored before (the mock default when nothing was stored). *)
Theorem post_settings_then_get requestBody settings :
  truthyJson requestBody = true →
  ∃ stored,
    postSettings DEFAULT_SETTINGS requestBody settings
    = (mkResponse 200 JNull, Some stored)
    ∧ getSettings (Some stored) = mkResponse 200 (JObject stored)
    ∧ ∀ key,
        stored !! key
        = match ownProperties requestBody !! key with
          | Some value => Some value
          | None =>
              default (MOCK_DEFAULT_USER_SETTINGS DEFAULT_SETTINGS) settings
              !! key
          end.
Proof.
  intros Htruthy. unfold postSettings. rewrite Htruthy.
  eexists. split; [done|]. split; [done|].
  intros key. apply lookup_spread.
Qed.

(** X14.  Posting the same settings twice in a row leaves the server as
    the first post left it, and gets the same answer. *)
Theorem post_settings_twice requestBody settings :
  postSettings DEFAULT_SETTINGS requestBody
    (postSettings DEFAULT_SETTINGS requestBody settings).2
  = postSettings DEFAULT_SETTINGS requestBody settings.
Proof.
  unfold postSettings.
  destruct (truthyJson requestBody); cbn; [|done].
  by rewrite spread_twice.
Qed.

Lemma lookup_providerTokensSet rawTokens (provider : string) :
  providerTokensSet rawTokens !! provider
  = match ownProperties rawTokens !! provider with
    | Some entry => if tokenGiven entry then Some (JString "") else None
    | None => None
    end.
Proof.
  unfold providerTokensSet. rewrite lookup_fmap.
  destruct (ownProperties rawTokens !! provider) as [entry|] eqn:Hentry.
  - destruct (tokenGiven entry) eqn:Hgiven.
    + erewrite map_lookup_filter_Some_2; [done|exact Hentry|done].
    + rewrite map_lookup_filter_None_2; [done|].
      right. intros entry' Hentry'. cbn. congruence.
  - rewrite map_lookup_filter_None_2; [done|]. by left.
Qed.

(** X15.  A [POST /api/add-git-providers] whose body is an object with a
    truthy [provider_tokens] answers 200 with [true].  Afterwards
    [provider_tokens_set] holds the empty string for exactly the providers
    whose entry is an object with a truthy [token], and nothing for any
    other provider, also those stored before; every other key of the
    settings keeps its value (the mock default when nothing was stored). *)
Theorem add_git_providers_sets_given_tokens requestBody rawTokens settings :
  getProperty "provider_tokens" requestBody = Some rawTokens →
  truthyJson rawTokens = true →
  ∃ stored,
    postAddGitProviders DEFAULT_SETTINGS requestBody settings
    = (mkResponse 200 (JBool true), Some stored)
    ∧ stored !! "provider_tokens_set"
      = Some (JObject (providerTokensSet rawTokens))
    ∧ (∀ provider,
         providerTokensSet rawTokens !! provider
         = match ownProperties rawTokens !! provider with
           | Some entry =>
               if tokenGiven entry then Some (JString "") else None
           | None => None
           end)
    ∧ (∀ key, key ≠ "provider_tokens_set" →
         stored !! key
         = default (MOCK_DEFAULT_USER_SETTINGS DEFAULT_SETTINGS) settings
           !! key).
Proof.
  intros Hraw Htruthy.
  assert (Htokens : providerTokensOf requestBody = Some rawTokens).
  { unfold providerTokensOf.
    destruct requestBody; try discriminate.
    cbn in *. by rewrite Hraw, Htruthy. }
  unfold postAddGitProviders. rewrite Htokens.
  eexists. split; [done|]. split; [apply lookup_insert_eq|].
  split; [apply lookup_providerTokensSet|].
  intros key Hkey. by rewrite lookup_insert_ne.
Qed.

(** X16.  Whatever the request, a handler that answers 400 or 404 leaves
    the stored settings as they were, a [GET] never changes them, and
    settings once stored are never lost: only before the first successful
    write does [GET /api/settings] answer 404. *)
Theorem handlers_keep_settings (VITE_MOCK_SAAS : option string)
    (method path : string) requestBody settings (response : Response)
    (settings' : option (gmap string Json)) :
  SETTINGS_HANDLERS DEFAULT_SETTINGS VITE_MOCK_SAAS method path
                    requestBody settings
  = Some (response, settings') →
  (status response ≠ 200 → settings' = settings)
  ∧ (method = "GET" → settings' = settings)
  ∧ (is_Some settings → is_Some settings')
  ∧ (status (getSettings settings') = 404 ↔ settings' = None).
Proof.
  intros Hhandled.
  assert (H404 : status (getSettings settings') = 404 ↔ settings' = None).
  { destruct settings'; cbn; split; (done || discriminate). }
  unfold SETTINGS_HANDLERS in Hhandled.
  repeat (case_bool_decide as Hroute;
          [injection Hhandled as <- <-;
           by (split; [|split; [|split; [|exact H404]]])|clear Hroute]).
  case_bool_decide as Hpost.
  { (* POST /api/settings *)
    destruct Hpost as [-> ->]. unfold postSettings in Hhandled.
    destruct (truthyJson requestBody); injection Hhandled as <- <-;
      (split; [|split; [|split; [|exact H404]]]); (done || eauto). }
  case_bool_decide as Hreset.
  { (* POST /api/reset-settings *)
    destruct Hreset as [-> ->].
    injection Hhandled as <- <-. (split; [|split; [|split; [|exact H404]]]); (done || eauto). }
  case_bool_decide as Hadd; [|discriminate].
  (* POST /api/add-git-providers *)
  destruct Hadd as [-> ->]. unfold postAddGitProviders in Hhandled.
  destruct (providerTokensOf requestBody); injection Hhandled as <- <-;
    (split; [|split; [|split; [|exact H404]]]); (done || eauto).
Qed.

End MockServer.

(** ** The Git settings form *)

Section GitForm.
Import GitSettings.
Implicit Types (formData : list (string * string)) (flags : InputFlags).
Implicit Types (edits : list (Input * string)).

Lemma get_found name (before after : list (string * string)) value :
  get name (before ++ (name, value) :: after) ≠ None.
Proof.
  induction before as [|[key other] before IH]; cbn.
  - by rewrite String.eqb_refl.
  - by destruct (String.eqb key name).
Qed.

Lemma get_missing name formData :
  Forall (λ entry, entry.1 ≠ name) formData → get name formData = None.
Proof.
  induction 1 as [|[key value] rest Hkey _ IH]; [done|]. cbn in *.
  apply String.eqb_neq in Hkey. by rewrite Hkey.
Qed.

(** X17.  The disconnect button wins: a form that carries an entry named
    [disconnect-tokens-button], anywhere and whatever else was typed,
    disconnects the tokens and saves nothing.  A form without it is saved,
    with all four providers in the request; an input that the form does not
    carry is sent as the empty string. *)
Theorem disconnect_button_wins :
  (∀ before value after,
     formAction (before ++ ("disconnect-tokens-button", value) :: after)
     = DisconnectGitTokens)
  ∧ (∀ formData,
       Forall (λ entry, entry.1 ≠ "disconnect-tokens-button") formData →
       formAction formData
       = SaveGitProviders
           {| github :=
                mkProviderToken (textOf "github-token-input" formData)
                                (textOf "github-host-input" formData);
              gitlab :=
                mkProviderToken (textOf "gitlab-token-input" formData)
                                (textOf "gitlab-host-input" formData);
              azure_devops :=
                mkProviderToken (textOf "azure-devops-token-input" formData)
                                (textOf "azure-devops-host-input" formData);
              bitbucket :=
                mkProviderToken (textOf "bitbucket-token-input" formData)
                                (textOf "bitbucket-host-input" formData) |})
  ∧ (∀ name formData,
       Forall (λ entry, entry.1 ≠ name) formData → textOf name formData = "").
Proof.
  split; [|split].
  - intros before value after. unfold formAction.
    by rewrite bool_decide_eq_true_2 by apply get_found.
  - intros formData Hfree. unfold formAction.
    rewrite bool_decide_eq_false_2; [done|].
    intros Hfound. apply Hfound. by apply get_missing.
  - intros name formData Hfree. unfold textOf. by rewrite get_missing.
Qed.

Lemma disconnect_button_wins_witness :
  formAction [("github-token-input", "ghp_token")]
  = SaveGitProviders
      {| github := mkProviderToken "ghp_token" "";
         gitlab := mkProviderToken "" "";
         azure_devops := mkProviderToken "" "";
         bitbucket := mkProviderToken "" "" |}.
Proof.
  destruct disconnect_button_wins as (_ & Hsave & _).
  apply (Hsave [("github-token-input", "ghp_token")]).
  repeat constructor; discriminate.
Defined.

Lemma flagOf_onChange (input changed : Input) (value : string) flags :
  flagOf input (onChange changed value flags)
  = if decide (input = changed) then negb (String.eqb value "")
    else flagOf input flags.
Proof. by destruct input, changed. Qed.

(** The flag of an input after some edits: whether the last text typed
    into it is non-empty, and its value before if it was not edited. *)
Lemma flagOf_edit (input : Input) edits flags :
  flagOf input (edit edits flags)
  = match last (filter (λ change, change.1 = input) edits) with
    | Some change => negb (String.eqb change.2 "")
    | None => flagOf input flags
    end.
Proof.
  induction edits as [|[changed value] edits IH] using rev_ind; [done|].
  unfold edit in *. rewrite foldl_app, filter_app. cbn [foldl fst snd].
  rewrite flagOf_onChange.
  destruct (decide (input = changed)) as [->|Hother].
  - rewrite filter_cons_True by done. cbn. by rewrite last_snoc.
  - rewrite filter_cons_False by (cbn; congruence).
    cbn. by rewrite app_nil_r.
Qed.

Lemma formIsClean_flags flags :
  formIsClean flags = true ↔ ∀ input, flagOf input flags = false.
Proof.
  unfold formIsClean. split.
  - rewrite !andb_true_iff, !negb_true_iff.
    intros (((((((? & ?) & ?) & ?) & ?) & ?) & ?) & ?) input.
    by destruct input.
  - intros Hall.
    pose proof (Hall GithubToken). pose proof (Hall GithubHost).
    pose proof (Hall GitlabToken). pose proof (Hall GitlabHost).
    pose proof (Hall AzureDevOpsToken). pose proof (Hall AzureDevOpsHost).
    pose proof (Hall BitbucketToken). pose proof (Hall BitbucketHost).
    cbn in *. by repeat (rewrite ?andb_true_iff, ?negb_true_iff; split).
Qed.

(** X18.  Starting from the freshly opened screen, after any edits the form
    is clean, and with it the submit button disabled when no save is
    pending, exactly when for each of the eight inputs the last text typed
    into it, if any, is empty. *)
Theorem form_is_clean_when_inputs_are_empty edits :
  (formIsClean (edit edits initialFlags) = true ↔
   ∀ input,
     match last (filter (λ change, change.1 = input) edits) with
     | Some change => change.2 = ""
     | None => True
     end)
  ∧ submitDisabled false (edit edits initialFlags)
    = formIsClean (edit edits initialFlags).
Proof.
  split; [|done].
  rewrite formIsClean_flags.
  apply forall_proper. intros input. rewrite flagOf_edit.
  destruct (last _) as [[changed value]|]; cbn.
  - rewrite negb_false_iff. apply String.eqb_eq.
  - by destruct input.
Qed.

(** X19.  When a save settles, seven of the eight flags are reset and the
    Bitbucket host flag is not: the form is clean again, and with no save
    pending the submit button disabled, exactly when the last text typed
    into the Bitbucket host input, if any, is empty, whatever was typed
    into the other inputs. *)
Theorem settled_form_keeps_bitbucket_host edits (isPending : bool) :
  let settled := onSettled (edit edits initialFlags) in
  let hostEmpty :=
    match last (filter (λ change, change.1 = BitbucketHost) edits) with
    | Some change => String.eqb change.2 ""
    | None => true
    end in
  (∀ input, input ≠ BitbucketHost → flagOf input settled = false)
  ∧ formIsClean settled = hostEmpty
  ∧ submitDisabled isPending settled = isPending || hostEmpty.
Proof.
  intros settled hostEmpty.
  assert (Hclean : formIsClean settled = hostEmpty).
  { unfold settled, formIsClean, onSettled. cbn.
    change (bitbucketHostInputHasValue (edit edits initialFlags))
      with (flagOf BitbucketHost (edit edits initialFlags)).
    rewrite flagOf_edit. unfold hostEmpty.
    destruct (last _) as [[changed value]|]; cbn; [|done].
    apply negb_involutive. }
  split; [|split; [done|]].
  - intros input Hinput. by destruct input.
  - unfold submitDisabled. by rewrite Hclean.
Qed.

End GitForm.

(** ** The PostHog provider *)

Section PostHogProvider.
Import Config PostHog.
Variable URLSearchParams : string → list (string * string).
Hypothesis URLSearchParams_empty : URLSearchParams "" = [].

(** X20.  [getBootstrapFromHash] returns ids exactly when the fragment
    carries both [ph_distinct_id] and [ph_session_id] with non-empty
    values, and then they are those values.  It removes the fragment from
    the URL in that case and only then, and never changes the path or the
    query.  Once it has returned ids, calling it again returns none: the
    fragment it would read is gone. *)
Theorem bootstrap_ids_are_taken_once (location : Location) :
  let params := URLSearchParams (substring1 (hash location)) in
  let result := getBootstrapFromHash URLSearchParams location in
  (∀ ids,
     result.1 = Some ids ↔
     paramsGet "ph_distinct_id" params = Some (distinctID ids)
     ∧ paramsGet "ph_session_id" params = Some (sessionID ids)
     ∧ distinctID ids ≠ "" ∧ sessionID ids ≠ "")
  ∧ pathname result.2 = pathname location
  ∧ search result.2 = search location
  ∧ (is_Some result.1 → hash result.2 = "")
  ∧ (result.1 = None → result.2 = location)
  ∧ (is_Some result.1 →
     getBootstrapFromHash URLSearchParams result.2 = (None, result.2)).
Proof.
  intros params result. unfold result, getBootstrapFromHash. fold params.
  destruct (paramsGet "ph_distinct_id" params) as [distinctId|];
    destruct (paramsGet "ph_session_id" params) as [sessionId|];
    try (cbn; split; [intros ids; split; [done|by intros (? & ? & _)]|];
         repeat split; (done || by intros [? ?])).
  destruct (String.eqb_spec distinctId "") as [->|Hdistinct];
    destruct (String.eqb_spec sessionId "") as [->|Hsession]; cbn;
    try (split; [intros [d s]; split; [done|cbn; intros (? & ? & ? & ?);
                                          congruence]|];
         repeat split; (done || by intros [? ?])).
  split.
  - intros [d s]. cbn. split.
    + intros [= <- <-]. done.
    + intros (? & ? & _). congruence.
  - repeat split; try done. intros _.
    by rewrite URLSearchParams_empty.
Qed.

(** X21.  [PostHogWrapper] renders its children bare while the
    configuration is loading, after a failed request (which displays one
    error toast), and when the configuration holds an empty client key.
    Otherwise it renders the provider with that key and with the ids taken
    from the URL fragment at the first render. *)
Theorem provider_needs_loaded_key (location : Location) (reply : ConfigReply) :
  let first := firstRender URLSearchParams location in
  let loaded := configLoaded reply first in
  render first = Children
  ∧ isLoading loaded = false
  ∧ render loaded
    = match reply with
      | ConfigResolves config =>
          if String.eqb (POSTHOG_CLIENT_KEY config) "" then Children
          else PostHogProvider (POSTHOG_CLIENT_KEY config)
                 "https://us.i.posthog.com" "identified_only"
                 (getBootstrapFromHash URLSearchParams location).1
      | ConfigRejects => Children
      end
  ∧ errorToasts loaded
    = match reply with
      | ConfigResolves _ => []
      | ConfigRejects => ["Error fetching PostHog client key"]
      end
  ∧ PostHog.location loaded
    = (getBootstrapFromHash URLSearchParams location).2.
Proof.
  intros first loaded. unfold loaded, first, firstRender.
  destruct (getBootstrapFromHash URLSearchParams location) as [ids location'].
  by destruct reply.
Qed.

End PostHogProvider.

(** ** Sessions, continued *)

Section Retries.
Implicit Types (w : World) (p : V1AppConversationStartTask).
Implicit Types (tid pid : string) (errors : list string).

#[local] Arguments settle : simpl never.
#[local] Arguments isTerminal : simpl never.

(** X3.  Once a task that is not terminal has been fetched, rejected
    fetches never stop the polling, however many follow one another: each
    is answered by arming the timer again, none changes the persisted
    record, the store or the data, and there is no bound on the number of
    attempts. *)
Theorem rejections_never_stop_polling tid pid p errors w :
  enabled (Some tid) (Some pid) = true →
  effectDeps w = Some (data (taskQuery w), Some pid) →
  data (taskQuery w) = DTask p →
  isTerminal (status p) = false →
  let run := pollLoop (Some tid) (Some pid) (Rejects <$> errors) in
  eval run w = true
  ∧ calls (exec run w) = calls w ++ replicate (length errors) (GetStartTask tid)
  ∧ localStorage (exec run w) = localStorage w
  ∧ storeSubConversationTaskId (exec run w) = storeSubConversationTaskId w
  ∧ data (taskQuery (exec run w)) = DTask p.
Proof.
  intros He. revert w.
  induction errors as [|err errors IH]; intros w Hdeps Hdata Hp run.
  { unfold run, eval, exec. cbn. by rewrite app_nil_r. }
  assert (Hw1 : exec (poll (Some tid) (Some pid) (Rejects err)) w
                = afterFetch tid (Rejects err) w).
  { unfold exec. rewrite poll_enabled by done. cbn [snd].
    rewrite render_exec. cbn. by rewrite decide_True. }
  assert (Hnext : (eval (poll (Some tid) (Some pid) (Rejects err)) w).2
                  = Some 3000%Z).
  { unfold eval. rewrite poll_enabled by done. cbn [fst snd].
    unfold refetchInterval. cbn. by rewrite Hdata, Hp. }
  assert (Hrun : run w = pollLoop (Some tid) (Some pid) (Rejects <$> errors)
                           (afterFetch tid (Rejects err) w)).
  { unfold run. cbn [fmap list_fmap]. by rewrite pollLoop_cons, Hnext, Hw1. }
  destruct (IH (afterFetch tid (Rejects err) w))
    as (Heval & Hcalls & Hls & Hstore & Hkept).
  { cbn. by rewrite Hdeps. }
  { cbn. exact Hdata. }
  { exact Hp. }
  unfold eval, exec in *. rewrite Hrun.
  split; [exact Heval|]. split; [|by repeat split].
  rewrite Hcalls. cbn. by rewrite <- app_assoc.
Qed.

End Retries.

(** ** Scenarios, continued *)

Section MoreScenarios.
Import Scenario.

Lemma rejections_never_stop_polling_witness :
  let working :=
    exec (poll taskId parentConversationId
               (Resolves (makeTask "WORKING" None))) mounted in
  eval (pollLoop taskId parentConversationId
                 (Rejects <$> ["Network Error"; "Network Error"; "timeout"]))
       working = true.
Proof.
  apply (rejections_never_stop_polling
           "task-123" "parent-conv-123" (makeTask "WORKING" None)
           ["Network Error"; "Network Error"; "timeout"]
           (exec (poll taskId parentConversationId
                       (Resolves (makeTask "WORKING" None))) mounted)).
  - reflexivity.
  - vm_compute. reflexivity.
  - vm_compute. reflexivity.
  - reflexivity.
Defined.

End MoreScenarios.

Section MockScenarios.
Import Js MockSettings.

Lemma post_settings_then_get_witness :
  ∃ stored,
    postSettings (λ _, JNull) (JObject {[ "language" := JString "fr" ]}) None
    = (mkResponse 200 JNull, Some stored)
    ∧ stored !! "language" = Some (JString "fr")
    ∧ stored !! "llm_api_key" = Some JNull.
Proof.
  destruct (post_settings_then_get
              (λ _, JNull) (JObject {[ "language" := JString "fr" ]}) None)
    as (stored & Hpost & _ & Hkeys); [reflexivity|].
  exists stored. split; [exact Hpost|].
  split; rewrite Hkeys; reflexivity.
Defined.

Lemma add_git_providers_sets_given_tokens_witness :
  ∃ stored,
    postAddGitProviders (λ _, JNull)
      (JObject
         {[ "provider_tokens" :=
              JObject
                (<[ "github" := JObject {[ "token" := JString "ghp_token" ]} ]>
                   {[ "gitlab" := JObject {[ "token" := JString "" ]} ]}) ]})
      None
    = (mkResponse 200 (JBool true), Some stored)
    ∧ stored !! "provider_tokens_set"
      = Some (JObject {[ "github" := JString "" ]}).
Proof.
  destruct (add_git_providers_sets_given_tokens
              (λ _, JNull)
              (JObject
                 {[ "provider_tokens" :=
                      JObject
                        (<[ "github" :=
                              JObject {[ "token" := JString "ghp_token" ]} ]>
                           {[ "gitlab" :=
                                JObject {[ "token" := JString "" ]} ]}) ]})
              (JObject
                 (<[ "github" := JObject {[ "token" := JString "ghp_token" ]} ]>
                    {[ "gitlab" := JObject {[ "token" := JString "" ]} ]}))
              None)
    as (stored & Hpost & Hset & _); [reflexivity | reflexivity |].
  exists stored. split; [exact Hpost|].
  rewrite Hset. reflexivity.
Defined.

Lemma handlers_keep_settings_witness :
  getSettings None = mkResponse 404 JNull
  ∧ (status (getSettings None) = 404 ↔ (None : option (gmap string Json)) = None).
Proof.
  destruct (handlers_keep_settings
              (λ _, JNull) None "GET" "/api/settings" JNull None
              (getSettings None) None)
    as (_ & _ & _ & H404); [reflexivity|].
  split; [reflexivity|exact H404].
Defined.

End MockScenarios.

Section FormScenarios.
Import GitSettings PostHog.

Lemma settled_form_keeps_bitbucket_host_witness :
  flagOf GithubToken
         (onSettled (edit [(GithubToken, "ghp_token");
                           (BitbucketHost, "bitbucket.example.com")]
                          initialFlags)) = false
  ∧ formIsClean
      (onSettled (edit [(GithubToken, "ghp_token");
                        (BitbucketHost, "bitbucket.example.com")]
                       initialFlags)) = false.
Proof.
  destruct (settled_form_keeps_bitbucket_host
              [(GithubToken, "ghp_token");
               (BitbucketHost, "bitbucket.example.com")] false)
    as (Hreset & Hclean & _).
  split; [apply Hreset; discriminate|exact Hclean].
Defined.

(** The parser here knows the one fragment of the component's test
    suite. *)
Lemma bootstrap_ids_are_taken_once_witness :
  let parse (text : string) :=
    if String.eqb text ""  then []
    else [("ph_distinct_id", "user-123"); ("ph_session_id", "session-456")] in
  let location :=
    mkLocation "/" "" "#ph_distinct_id=user-123&ph_session_id=session-456" in
  hash (getBootstrapFromHash parse location).2 = ""
  ∧ getBootstrapFromHash parse (getBootstrapFromHash parse location).2
    = (None, (getBootstrapFromHash parse location).2).
Proof.
  intros parse location.
  destruct (bootstrap_ids_are_taken_once parse eq_refl location)
    as (_ & _ & _ & Hclean & _ & Hagain).
  split; [apply Hclean|apply Hagain]; by eexists.
Defined.

End FormScenarios.

(** ** The whole lifetime: timer, window focus and reconnect *)

Section Lifetime.
Implicit Types (w : World) (t p : V1AppConversationStartTask).
Implicit Types (tid pid : string) (replies : list Reply).
Implicit Types (events : list (Trigger * Reply)).

#[local] Arguments settle : simpl never.
#[local] Arguments isTerminal : simpl never.
#[local] Arguments invalidationCount : simpl never.
#[local] Arguments fetchCount : simpl never.

Lemma fetchCount_app (before after : list Call) :
  fetchCount (before ++ after) = fetchCount before + fetchCount after.
Proof. unfold fetchCount. by rewrite filter_app, length_app. Qed.

Lemma fetchCount_fetches n tid : fetchCount (replicate n (GetStartTask tid)) = n.
Proof.
  induction n as [|n IH]; [done|].
  change (replicate (S n) (GetStartTask tid))
    with ([GetStartTask tid] ++ replicate n (GetStartTask tid)).
  by rewrite fetchCount_app, IH.
Qed.

Lemma fetchCount_settlement pid d : fetchCount (settlementCalls pid d) = 0.
Proof.
  unfold settlementCalls.
  destruct (readyWithConversation d); [done|]. by destruct (failed d).
Qed.

(** Every poll of an enabled query calls the service once. *)
Lemma poll_fetchCount tid pid reply w :
  enabled (Some tid) (Some pid) = true →
  fetchCount (calls (exec (poll (Some tid) (Some pid) reply) w))
  = S (fetchCount (calls w)).
Proof.
  intros He. unfold exec. rewrite poll_enabled by done. cbn [snd].
  rewrite render_fetchCount. cbn. rewrite fetchCount_app.
  change (fetchCount [GetStartTask tid]) with 1. lia.
Qed.

Lemma refetchLoop_cons taskId parentConversationId trigger reply events
    (armed : bool) w :
  refetchLoop taskId parentConversationId ((trigger, reply) :: events) armed w
  = if fires trigger armed && enabled taskId parentConversationId then
      refetchLoop taskId parentConversationId events
        (bool_decide
           (is_Some (eval (poll taskId parentConversationId reply) w).2))
        (exec (poll taskId parentConversationId reply) w)
    else refetchLoop taskId parentConversationId events armed w.
Proof.
  cbn [refetchLoop].
  destruct (fires trigger armed && enabled taskId parentConversationId);
    [|done].
  unfold mbind, M_bind, eval, exec.
  by destruct (poll _ _ _ _) as [[result next] w'].
Qed.

(** While the timer is off, timer events pass without effect. *)
Lemma refetchLoop_timer_off taskId parentConversationId events w :
  Forall (λ event, event.1 = TimerFires) events →
  refetchLoop taskId parentConversationId events false w = (false, w).
Proof.
  induction 1 as [|[trigger reply] events Htimer _ IH]; [done|].
  cbn in Htimer. subst trigger. by rewrite refetchLoop_cons.
Qed.

Lemma lifetime_run taskId parentConversationId replies events w :
  lifetime taskId parentConversationId replies events w
  = refetchLoop taskId parentConversationId events
      (eval (mount taskId parentConversationId replies) w)
      (exec (mount taskId parentConversationId replies) w).
Proof.
  unfold lifetime, mbind, M_bind, eval, exec.
  by destruct (mount _ _ _ _).
Qed.

(** X1.  From a freshly loaded page, when the first fetch and the timer's
    polls return tasks that are not terminal and then a terminal one, the
    hook fetches once per task, settles the terminal task exactly once and
    leaves the timer off: timer events that follow start no fetch.  The
    window regaining focus or the network coming back still starts one more
    fetch. *)
Theorem timer_stops_at_terminal tid pid
    (pre : list V1AppConversationStartTask) t events
    (ls : LocalStorage) (store : option string) :
  enabled (Some tid) (Some pid) = true →
  Forall (λ p, isTerminal (status p) = false) pre →
  isTerminal (status t) = true →
  Forall (λ event, event.1 = TimerFires) events →
  let polled := map Resolves pre ++ [Resolves t] in
  let fresh := freshWorld ls store in
  eval (lifetime (Some tid) (Some pid) polled events) fresh = false
  ∧ calls (exec (lifetime (Some tid) (Some pid) polled events) fresh)
    = replicate (S (length pre)) (GetStartTask tid)
      ++ settlementCalls pid (DTask t)
  ∧ ∀ trigger reply,
      trigger ≠ TimerFires →
      fetchCount
        (calls (exec (lifetime (Some tid) (Some pid) polled
                               [(trigger, reply)]) fresh))
      = S (S (length pre)).
Proof.
  intros He Hpre Ht Htimer polled fresh.
  destruct (mount_until_terminal tid pid pre t [] ls store He Hpre Ht)
    as [Hoff Hcalls].
  fold polled fresh in Hoff, Hcalls.
  unfold eval, exec. rewrite !lifetime_run, Hoff.
  rewrite refetchLoop_timer_off by done. cbn [fst snd].
  split; [done|]. split; [exact Hcalls|].
  intros trigger reply Htrigger.
  rewrite lifetime_run, Hoff, refetchLoop_cons.
  replace (fires trigger false) with true by by destruct trigger.
  rewrite He. cbn [andb refetchLoop mret M_ret snd].
  rewrite poll_fetchCount by done. rewrite Hcalls.
  by rewrite fetchCount_app, fetchCount_fetches, fetchCount_settlement,
    Nat.add_0_r.
Qed.

(** One poll from a state in which the effect has run on the current data:
    the request, then the settlement of the answer if the effect ran. *)
Lemma poll_block tid pid reply w :
  enabled (Some tid) (Some pid) = true →
  effectDeps w = Some (data (taskQuery w), Some pid) →
  ∃ settled : bool,
    calls (exec (poll (Some tid) (Some pid) reply) w)
    = calls w ++ fetchBlock tid pid (reply, settled).
Proof.
  intros He Hdeps. pose proof He as [Htid Hpid]%enabled_spec.
  unfold exec. rewrite poll_enabled by done. cbn [snd].
  rewrite render_exec. cbn [afterFetch].
  case_decide as Hsame.
  { exists false. cbn. done. }
  destruct reply as [t|err].
  - exists true. rewrite settle_calls by done. cbn.
    by rewrite <- app_assoc.
  - destruct Hsame. cbn. exact Hdeps.
Qed.

Lemma pollLoop_blocks tid pid replies w :
  enabled (Some tid) (Some pid) = true →
  effectDeps w = Some (data (taskQuery w), Some pid) →
  let w' := exec (pollLoop (Some tid) (Some pid) replies) w in
  (∃ fetched : list (Reply * bool),
     calls w' = calls w ++ concat (fetchBlock tid pid <$> fetched)
     ∧ fetched.*1 `sublist_of` replies)
  ∧ effectDeps w' = Some (data (taskQuery w'), Some pid).
Proof.
  intros He. revert w.
  induction replies as [|reply later IH]; intros w Hdeps w'.
  { split; [|done]. exists []. cbn. by rewrite app_nil_r. }
  assert (Hrun :
    exec (pollLoop (Some tid) (Some pid) (reply :: later)) w
    = match (eval (poll (Some tid) (Some pid) reply) w).2 with
      | Some _ =>
          exec (pollLoop (Some tid) (Some pid) later)
               (exec (poll (Some tid) (Some pid) reply) w)
      | None => exec (poll (Some tid) (Some pid) reply) w
      end).
  { unfold exec at 1. rewrite pollLoop_cons.
    by destruct ((eval (poll (Some tid) (Some pid) reply) w).2). }
  unfold w'. rewrite Hrun. clear Hrun w'.
  destruct (poll_block tid pid reply w He Hdeps) as [settled Hblock].
  pose proof (poll_commits tid pid reply w He) as Hdeps1.
  destruct ((eval (poll (Some tid) (Some pid) reply) w).2).
  - destruct (IH _ Hdeps1) as [(fetched & Hcalls & Hsub) Hdeps'].
    split; [|exact Hdeps'].
    exists ((reply, settled) :: fetched). split.
    + rewrite Hcalls, Hblock. cbn. by rewrite <- !app_assoc.
    + cbn. by apply sublist_skip.
  - split; [|exact Hdeps1].
    exists [(reply, settled)]. split.
    + rewrite Hblock. cbn. by rewrite app_nil_r.
    + cbn. apply sublist_skip, sublist_nil_l.
Qed.

Lemma refetchLoop_blocks tid pid events (armed : bool) w :
  enabled (Some tid) (Some pid) = true →
  effectDeps w = Some (data (taskQuery w), Some pid) →
  ∃ fetched : list (Reply * bool),
    calls (exec (refetchLoop (Some tid) (Some pid) events armed) w)
    = calls w ++ concat (fetchBlock tid pid <$> fetched)
    ∧ fetched.*1 `sublist_of` events.*2.
Proof.
  intros He. revert armed w.
  induction events as [|[trigger reply] later IH]; intros armed w Hdeps.
  { exists []. cbn. by rewrite app_nil_r. }
  assert (Hrun :
    exec (refetchLoop (Some tid) (Some pid) ((trigger, reply) :: later) armed) w
    = if fires trigger armed then
        exec (refetchLoop (Some tid) (Some pid) later
                (bool_decide
                   (is_Some (eval (poll (Some tid) (Some pid) reply) w).2)))
             (exec (poll (Some tid) (Some pid) reply) w)
      else exec (refetchLoop (Some tid) (Some pid) later armed) w).
  { unfold exec at 1. rewrite refetchLoop_cons, He, andb_true_r.
    by destruct (fires trigger armed). }
  rewrite Hrun. clear Hrun.
  destruct (fires trigger armed).
  - destruct (poll_block tid pid reply w He Hdeps) as [settled Hblock].
    pose proof (poll_commits tid pid reply w He) as Hdeps1.
    destruct (IH (bool_decide
                    (is_Some (eval (poll (Some tid) (Some pid) reply) w).2))
                 _ Hdeps1) as (fetched & Hcalls & Hsub).
    exists ((reply, settled) :: fetched). split.
    + rewrite Hcalls, Hblock. cbn. by rewrite <- !app_assoc.
    + cbn. by apply sublist_skip.
  - destruct (IH armed w Hdeps) as (fetched & Hcalls & Hsub).
    exists fetched. split; [exact Hcalls|]. cbn. by apply sublist_cons.
Qed.

Lemma invalidationCount_blocks tid pid (fetched : list (Reply * bool)) :
  (invalidationCount (concat (fetchBlock tid pid <$> fetched))
   ≤ length (filter (λ reply, isReadyAnswer reply = true) fetched.*1))%nat.
Proof.
  induction fetched as [|[reply settled] fetched IH]; [done|].
  cbn [fmap list_fmap concat fst].
  rewrite invalidationCount_app, filter_cons.
  assert (Hblock : (invalidationCount (fetchBlock tid pid (reply, settled))
                    ≤ if isReadyAnswer reply then 1 else 0)%nat).
  { unfold fetchBlock. cbn [fst snd].
    change (GetStartTask tid :: ?tail) with ([GetStartTask tid] ++ tail).
    rewrite invalidationCount_app.
    change (invalidationCount [GetStartTask tid]) with 0. cbn [Nat.add].
    destruct settled; [|destruct (isReadyAnswer reply); cbv; lia].
    destruct reply as [t|err]; [|cbv; lia].
    unfold isReadyAnswer, settlementCalls.
    destruct (readyWithConversation (DTask t)); [cbv; lia|].
    destruct (failed (DTask t)); cbv; lia. }
  destruct (isReadyAnswer reply) eqn:Hready.
  - rewrite decide_True by done. cbn [length]. lia.
  - rewrite decide_False by done. lia.
Qed.

Lemma sublist_filter_length {A} (P : A → Prop) `{!∀ x, Decision (P x)}
    (l1 l2 : list A) :
  l1 `sublist_of` l2 → (length (filter P l1) ≤ length (filter P l2))%nat.
Proof.
  induction 1 as [|x l1 l2 _ IH|x l1 l2 _ IH]; [done| |].
  - rewrite !filter_cons. destruct (decide (P x)); cbn; lia.
  - rewrite filter_cons. destruct (decide (P x)); cbn; lia.
Qed.

(** X2.  From a freshly loaded page and for anything that can start a fetch
    afterwards (the timer, a window focus, a reconnect, in any order) and
    any answers of the service, the calls of the mounted hook are a sequence
    of fetches of its task, each followed by nothing or by the settlement of
    the very task that fetch returned.  So nothing is settled on a render
    alone or after a rejection, two settlements never follow one another
    without a fetch between them, and the cache is invalidated at most once
    for each fetch that returned a READY task with a result reference. *)
Theorem settlement_follows_its_fetch tid pid replies events
    (ls : LocalStorage) (store : option string) :
  enabled (Some tid) (Some pid) = true →
  let w' :=
    exec (lifetime (Some tid) (Some pid) replies events) (freshWorld ls store)
  in
  (∃ fetched : list (Reply * bool),
     calls w' = concat (fetchBlock tid pid <$> fetched)
     ∧ fetched.*1 `sublist_of` replies ++ events.*2)
  ∧ (invalidationCount (calls w')
     ≤ length (filter (λ reply, isReadyAnswer reply = true)
                      (replies ++ events.*2)))%nat.
Proof.
  intros He w'.
  assert (Hshape :
    ∃ fetched : list (Reply * bool),
      calls w' = concat (fetchBlock tid pid <$> fetched)
      ∧ fetched.*1 `sublist_of` replies ++ events.*2).
  { set (w1 := exec (useSubConversationTaskPolling (Some tid) (Some pid))
                    (startFetching (freshWorld ls store))).
    assert (Hw1 : w1 = withEffectDeps (DUndefined, Some pid)
                         (startFetching (freshWorld ls store))).
    { unfold w1. rewrite render_exec. cbn.
      rewrite decide_False by done.
      unfold exec. by rewrite settle_idle. }
    destruct (pollLoop_blocks tid pid replies w1 He)
      as [(fetched1 & Hcalls1 & Hsub1) Hdeps1].
    { by rewrite Hw1. }
    destruct (refetchLoop_blocks tid pid events
                (eval (mount (Some tid) (Some pid) replies)
                      (freshWorld ls store))
                (exec (pollLoop (Some tid) (Some pid) replies) w1) He Hdeps1)
      as (fetched2 & Hcalls2 & Hsub2).
    exists (fetched1 ++ fetched2). split.
    - assert (Hrun :
        w' = exec (refetchLoop (Some tid) (Some pid) events
                     (eval (mount (Some tid) (Some pid) replies)
                           (freshWorld ls store)))
                  (exec (pollLoop (Some tid) (Some pid) replies) w1)).
      { assert (Hmount :
          exec (mount (Some tid) (Some pid) replies) (freshWorld ls store)
          = exec (pollLoop (Some tid) (Some pid) replies) w1).
        { unfold exec at 1. by rewrite mount_enabled. }
        unfold w'. unfold exec at 1. by rewrite lifetime_run, Hmount. }
      rewrite Hrun, Hcalls2, Hcalls1, Hw1. cbn.
      by rewrite fmap_app, concat_app.
    - rewrite fmap_app. by apply sublist_app. }
  split; [exact Hshape|].
  destruct Hshape as (fetched & -> & Hsub).
  etrans; [apply invalidationCount_blocks|].
  by apply sublist_filter_length.
Qed.

End Lifetime.

Section LifetimeScenarios.
Import Scenario.

Lemma timer_stops_at_terminal_witness :
  let polled :=
    map Resolves [makeTask "WAITING_FOR_SANDBOX" None; makeTask "WORKING" None]
    ++ [Resolves (makeTask "READY" (Some "sub-conv-456"))] in
  let fresh := freshWorld ∅ (Some "task-123") in
  eval (lifetime taskId parentConversationId polled
                 [(TimerFires, Resolves (makeTask "ERROR" None))]) fresh
  = false
  ∧ calls (exec (lifetime taskId parentConversationId polled
                          [(TimerFires, Resolves (makeTask "ERROR" None))])
                fresh)
    = replicate 3 (GetStartTask "task-123")
      ++ settlementCalls "parent-conv-123"
           (DTask (makeTask "READY" (Some "sub-conv-456")))
  ∧ fetchCount
      (calls (exec (lifetime taskId parentConversationId polled
                             [(WindowFocus,
                               Resolves (makeTask "READY"
                                                  (Some "sub-conv-456")))])
                   fresh))
    = 4.
Proof.
  destruct (timer_stops_at_terminal
              "task-123" "parent-conv-123"
              [makeTask "WAITING_FOR_SANDBOX" None; makeTask "WORKING" None]
              (makeTask "READY" (Some "sub-conv-456"))
              [(TimerFires, Resolves (makeTask "ERROR" None))]
              ∅ (Some "task-123"))
    as (Hoff & Hcalls & Hfocus).
  - reflexivity.
  - repeat constructor.
  - reflexivity.
  - repeat constructor.
  - split; [exact Hoff|]. split; [exact Hcalls|].
    apply (Hfocus WindowFocus). discriminate.
Defined.

Lemma settlement_follows_its_fetch_witness :
  (invalidationCount
     (calls (exec (lifetime taskId parentConversationId
                            [Resolves (makeTask "WORKING" None);
                             Rejects "Network Error";
                             Resolves (makeTask "READY" (Some "sub-conv-456"))]
                            [(WindowFocus,
                              Resolves (makeTask "READY"
                                                 (Some "sub-conv-789")))])
                  (freshWorld ∅ (Some "task-123")))) ≤ 2)%nat.
Proof.
  apply (proj2 (settlement_follows_its_fetch
                  "task-123" "parent-conv-123"
                  [Resolves (makeTask "WORKING" None);
                   Rejects "Network Error";
                   Resolves (makeTask "READY" (Some "sub-conv-456"))]
                  [(WindowFocus,
                    Resolves (makeTask "READY" (Some "sub-conv-789")))]
                  ∅ (Some "task-123") eq_refl)).
Defined.

(** A settled hook fetches again when the window regains focus, and
    settles again if the service then returns another READY task. *)
Example focus_refetch_settles_another_task :
  let run :=
    lifetime taskId parentConversationId
      [Resolves (makeTask "READY" (Some "sub-conv-456"))]
      [(TimerFires, Resolves (makeTask "READY" (Some "sub-conv-789")));
       (WindowFocus, Resolves (makeTask "READY" (Some "sub-conv-456")));
       (WindowFocus, Resolves (makeTask "READY" (Some "sub-conv-789")))] in
  fetchCount (calls (exec run tracking)) = 3
  ∧ invalidationCount (calls (exec run tracking)) = 2
  ∧ eval run tracking = false.
Proof. vm_compute. done. Qed.

End LifetimeScenarios.
